(** * Node encoding of the note-commitment Merkle tree, and the chain benchmark command

    Shallow embedding of
    - [NodeEncoding] ([serialize], [deserialize], [getSize]), the database
      encoding of a Merkle-tree node, together with the part of the [bufio]
      writer and reader it calls;
    - [BenchmarkChain.start], the CLI command replaying the first blocks of
      the chain into a second node.

    Buffers are lists of bytes, JavaScript numbers that hold indices are
    integers ([Z]), buffer offsets and lengths are naturals.  Exceptions are
    an explicit error result. *)

From Stdlib Require Import String ZArith List Lia Bool.
From Stdlib Require Import Strings.Byte.
From Stdlib Require Import DecimalString.
Import ListNotations.

Local Open Scope Z_scope.

(** ** Bytes *)

Definition Buffer : Type := list byte.

(** Storing a number into a [Uint8Array] slot keeps its low eight bits. *)
Definition byte_of_Z (z : Z) : byte :=
  match Byte.of_N (Z.to_N (z mod 256)) with
  | Some b => b
  | None => x00
  end.

Definition Z_of_byte (b : byte) : Z := Z.of_N (Byte.to_N b).

(** ** Errors and the result of a call that may throw *)

Inductive Error : Type :=
| EncodingError (offset : nat) (reason : string)
| EnforceError (name : string) (expected : string).

Inductive result (A : Type) : Type :=
| Ok (a : A)
| Err (e : Error).

Arguments Ok {A} a.
Arguments Err {A} e.

Definition bind {A B : Type} (c : result A) (k : A -> result B) : result B :=
  match c with
  | Ok a => k a
  | Err e => Err e
  end.

Notation "x <- c ;; k" := (bind c (fun x => k))
  (at level 61, c at next level, right associativity).
Notation "' pat <- c ;; k" := (bind c (fun x => match x with pat => k end))
  (at level 61, pat pattern, c at next level, right associativity).

Definition isOk {A : Type} (c : result A) : bool :=
  match c with
  | Ok _ => true
  | Err _ => false
  end.

(** ** The [bufio] writer and reader

    [bufio] is the npm package the encoding is written against.
    [bufio.write(size)] is a [StaticWriter] over a buffer of [size] bytes,
    [bufio.read(buffer, true)] a [BufferReader].  Only the methods
    [NodeEncoding] calls are embedded. *)

Module Bufio.

Definition OUT_OF_BOUNDS_WRITE : string := "Out of bounds write".
Definition OUT_OF_BOUNDS_READ : string := "Out of bounds read".

(** [Number.isSafeInteger] on a number that is an integer. *)
Definition isSafeInteger (num : Z) : bool :=
  (- (2 ^ 53 - 1) <=? num) && (num <=? 2 ^ 53 - 1).

Definition enforce (cond : bool) (name expected : string) : result unit :=
  if cond then Ok tt else Err (EnforceError name expected).

(** *** StaticWriter *)

Record StaticWriter : Type := mkWriter {
  w_data : Buffer;
  w_offset : nat
}.

(** [bufio.write(size)]: the buffer is allocated up front; its initial
    content is never observed, since [render] demands it fully written. *)
Definition write (size : nat) : StaticWriter :=
  mkWriter (repeat x00 size) 0.

Definition w_check (size : nat) (bw : StaticWriter) : result unit :=
  if (length (w_data bw) <? w_offset bw + size)%nat
  then Err (EncodingError (w_offset bw) OUT_OF_BOUNDS_WRITE)
  else Ok tt.

(** [src.copy(dst, off)] and the indexed stores [dst[off++] = b]. *)
Definition blit (dst : Buffer) (off : nat) (src : Buffer) : Buffer :=
  firstn off dst ++ src ++ skipn (off + length src) dst.

Definition writeBytes (value : Buffer) (bw : StaticWriter) : result StaticWriter :=
  _ <- w_check (length value) bw ;;
  Ok (mkWriter (blit (w_data bw) (w_offset bw) value)
               (w_offset bw + length value)).

Definition writeHash (value : Buffer) (bw : StaticWriter) : result StaticWriter :=
  _ <- enforce (length value =? 32)%nat "value" "32-byte hash" ;;
  writeBytes value bw.

Definition writeU8 (value : Z) (bw : StaticWriter) : result StaticWriter :=
  _ <- w_check 1 bw ;;
  _ <- enforce (isSafeInteger value) "num" "integer" ;;
  Ok (mkWriter (blit (w_data bw) (w_offset bw) [byte_of_Z value])
               (w_offset bw + 1)).

(** The four stores of [encoding.writeU32]: [dst[off++] = num; num >>>= 8]
    repeated, that is the low 32 bits of [num], least significant byte
    first. *)
Definition u32_bytes (num : Z) : Buffer :=
  let n0 := num mod 2 ^ 32 in
  let n1 := Z.shiftr n0 8 in
  let n2 := Z.shiftr n1 8 in
  let n3 := Z.shiftr n2 8 in
  [byte_of_Z n0; byte_of_Z n1; byte_of_Z n2; byte_of_Z n3].

Definition writeU32 (value : Z) (bw : StaticWriter) : result StaticWriter :=
  _ <- w_check 4 bw ;;
  _ <- enforce (isSafeInteger value) "num" "integer" ;;
  Ok (mkWriter (blit (w_data bw) (w_offset bw) (u32_bytes value))
               (w_offset bw + 4)).

Definition render (bw : StaticWriter) : result Buffer :=
  if (w_offset bw =? length (w_data bw))%nat
  then Ok (w_data bw)
  else Err (EncodingError (w_offset bw) OUT_OF_BOUNDS_WRITE).

(** *** BufferReader *)

Record BufferReader : Type := mkReader {
  r_data : Buffer;
  r_offset : nat
}.

Definition read (data : Buffer) : BufferReader := mkReader data 0.

Definition r_check (size : nat) (br : BufferReader) : result unit :=
  if (length (r_data br) <? r_offset br + size)%nat
  then Err (EncodingError (r_offset br) OUT_OF_BOUNDS_READ)
  else Ok tt.

Definition byteAt (data : Buffer) (off : nat) : Z :=
  Z_of_byte (nth off data x00).

Definition readBytes (size : nat) (br : BufferReader)
  : result (Buffer * BufferReader) :=
  _ <- r_check size br ;;
  Ok (firstn size (skipn (r_offset br) (r_data br)),
      mkReader (r_data br) (r_offset br + size)).

Definition readHash (br : BufferReader) : result (Buffer * BufferReader) :=
  readBytes 32 br.

Definition readU8 (br : BufferReader) : result (Z * BufferReader) :=
  _ <- r_check 1 br ;;
  Ok (byteAt (r_data br) (r_offset br),
      mkReader (r_data br) (r_offset br + 1)).

(** [encoding.readU32]: [data[off++] + data[off++] * 0x100 + ...]. *)
Definition u32_at (data : Buffer) (off : nat) : Z :=
  byteAt data off
  + byteAt data (off + 1) * 256
  + byteAt data (off + 2) * 65536
  + byteAt data (off + 3) * 16777216.

Definition readU32 (br : BufferReader) : result (Z * BufferReader) :=
  _ <- r_check 4 br ;;
  Ok (u32_at (r_data br) (r_offset br),
      mkReader (r_data br) (r_offset br + 4)).

Definition left (br : BufferReader) : nat :=
  (length (r_data br) - r_offset br)%nat.

End Bufio.

(** ** Node values *)

Inductive Side : Type := Left | Right.

(** [NodeValue<Buffer> = LeftNodeValue<Buffer> | RightNodeValue<Buffer>];
    the optional [rightIndex] is [None] when [undefined]. *)
Inductive NodeValue : Type :=
| LeftNodeValue (hashOfSibling : Buffer) (parentIndex : Z) (rightIndex : option Z)
| RightNodeValue (hashOfSibling : Buffer) (leftIndex : Z).

Definition side (value : NodeValue) : Side :=
  match value with
  | LeftNodeValue _ _ _ => Left
  | RightNodeValue _ _ => Right
  end.

Definition hashOfSibling (value : NodeValue) : Buffer :=
  match value with
  | LeftNodeValue h _ _ => h
  | RightNodeValue h _ => h
  end.

(** The index every node carries: [parentIndex] of a left node, [leftIndex]
    of a right node. *)
Definition otherIndex (value : NodeValue) : Z :=
  match value with
  | LeftNodeValue _ p _ => p
  | RightNodeValue _ l => l
  end.

Definition rightIndex (value : NodeValue) : option Z :=
  match value with
  | LeftNodeValue _ _ r => r
  | RightNodeValue _ _ => None
  end.

Definition isLeft (value : NodeValue) : bool :=
  match side value with
  | Left => true
  | Right => false
  end.

Definition hasRightIndex (value : NodeValue) : bool :=
  match rightIndex value with
  | Some _ => true
  | None => false
  end.

(** ** NodeEncoding *)

Module NodeEncoding.
Import Bufio.

Definition getSize (value : NodeValue) : nat :=
  let size := 0%nat in
  let size := (size + 1)%nat in
  let size := (size + 32)%nat in
  let size := (size + 4)%nat in
  match value with
  | LeftNodeValue _ _ (Some _) => (size + 4)%nat
  | _ => size
  end.

Definition serialize (value : NodeValue) : result Buffer :=
  let bw := write (getSize value) in
  bw <- writeHash (hashOfSibling value) bw ;;
  match value with
  | LeftNodeValue _ parentIndex rightIndex =>
      bw <- writeU8 0 bw ;;
      bw <- writeU32 parentIndex bw ;;
      bw <- match rightIndex with
            | Some r => writeU32 r bw
            | None => Ok bw
            end ;;
      render bw
  | RightNodeValue _ leftIndex =>
      bw <- writeU8 1 bw ;;
      bw <- writeU32 leftIndex bw ;;
      render bw
  end.

(** The body of [deserialize], keeping the reader it ends with. *)
Definition deserializeFrom (reader : BufferReader)
  : result (NodeValue * BufferReader) :=
  '(hashOfSibling, reader) <- readHash reader ;;
  '(sideNumber, reader) <- readU8 reader ;;
  let side := if sideNumber =? 0 then Left else Right in
  '(otherIndex, reader) <- readU32 reader ;;
  match side with
  | Left =>
      '(rightIndex, reader) <-
        (if (0 <? left reader)%nat
         then '(r, reader) <- readU32 reader ;; Ok (Some r, reader)
         else Ok (None, reader)) ;;
      Ok (LeftNodeValue hashOfSibling otherIndex rightIndex, reader)
  | Right =>
      Ok (RightNodeValue hashOfSibling otherIndex, reader)
  end.

Definition deserialize (buffer : Buffer) : result NodeValue :=
  '(value, _) <- deserializeFrom (read buffer) ;;
  Ok value.

End NodeEncoding.

(** ** Valid node values *)

Definition isU32 (n : Z) : bool := (0 <=? n) && (n <? 2 ^ 32).

(** A 32-byte sibling hash and indices that fit 32 unsigned bits. *)
Definition isValid (value : NodeValue) : bool :=
  match value with
  | LeftNodeValue h p r =>
      (length h =? 32)%nat && isU32 p
      && match r with Some r => isU32 r | None => true end
  | RightNodeValue h l =>
      (length h =? 32)%nat && isU32 l
  end.

(** * The benchmark command

    [BenchmarkChain.start] talks to two nodes: the node of the command (the
    reference chain, only read) and a second node opened on the data
    directory [~/.ironfishbenchmark].  The reference chain is a record of
    the observations [start] makes.  The second node is the list of calls
    [start] has made on it so far, its answers being functions of that list.
    What the command prints is a list of output events.  [this.exit] is the
    command framework's [exit], which throws; [Assert.isNotNull] throws on
    [null].  Collaborator calls that [start] does not guard are taken to
    return. *)

Module Benchmark.

Declare Scope cmd_scope.
Local Open Scope string_scope.

Inductive Exception : Type :=
| ExitError (code : Z)
| AssertionError
| OtherError (stack : string).

(** [(e as Error).stack]; inside the [try] of [start] only [OtherError]
    arises. *)
Definition stack (e : Exception) : string :=
  match e with
  | ExitError _ => "ExitError"
  | AssertionError => "AssertionError"
  | OtherError s => s
  end.

Inductive Step (A : Type) : Type :=
| Continue (a : A)
| Throw (e : Exception).

Arguments Continue {A} a.
Arguments Throw {A} e.

Inductive Output : Type :=
| ActionStart (msg : string)
| ActionStop (msg : string)
| Log (msg : string).

Section BenchmarkChain.

Variables Header Block Hash Time : Type.

(** [header.sequence] and [header.noteCommitment.size]. *)
Variable sequence : Header -> Z.
Variable noteCommitmentSize : Header -> Z.

(** What [start] reads of [node.chain], [node.chain.notes] and
    [node.config]. *)
Record Chain : Type := {
  isEmpty : bool;
  head : Header;
  genesis : Header;
  getHeaderAtSequence : Z -> option Header;
  iterateTo : Header -> Header -> list Header;
  getBlock : Header -> option Block;
  pastRoot : Z -> Hash;
  chainDatabasePath : string
}.

(** The calls made on the benchmark SDK and node. *)
Inductive BenchCall : Type :=
| SdkInit (dataDir : string)
| CreateNode
| OpenDB
| ChainOpen
| AddBlock (block : Block)
| RehashTree.

(** The benchmark node: whether opening it throws, and what its note
    tree answers after a given list of calls. *)
Record BenchmarkNode : Type := {
  openDBError : option string;
  chainOpenError : option string;
  rootHash : list BenchCall -> Hash;
  size : list BenchCall -> Z
}.

(** Rendering of values inside template strings, elapsed times as
    [BenchUtils.end] reports them (the k-th measurement), and the sum of
    two times. *)
Variable toHex : Hash -> string.
Variable showNumber : Z -> string.
Variable showTime : Time -> string.
Variable timeZero : Time.
Variable timeAdd : Time -> Time -> Time.
Variable elapsed : nat -> Time.

Variable node : Chain.
Variable benchmarkNode : BenchmarkNode.

Record State : Type := mkState {
  calls : list BenchCall;
  output : list Output;
  measured : nat
}.

Definition initial : State := mkState [] [] 0.

Definition Cmd (A : Type) : Type := State -> State * Step A.

Definition ret {A : Type} (a : A) : Cmd A := fun st => (st, Continue a).

Definition seq {A B : Type} (c : Cmd A) (k : A -> Cmd B) : Cmd B :=
  fun st =>
    match c st with
    | (st', Continue a) => k a st'
    | (st', Throw e) => (st', Throw e)
    end.

Notation "x <- c ;; k" := (seq c (fun x => k))
  (at level 61, c at next level, right associativity) : cmd_scope.
Notation "c ;;; k" := (seq c (fun _ => k))
  (at level 61, right associativity) : cmd_scope.
Local Open Scope cmd_scope.

Definition throw {A : Type} (e : Exception) : Cmd A := fun st => (st, Throw e).

Definition tryCatch (body : Cmd unit) (handler : Exception -> Cmd unit) : Cmd unit :=
  fun st =>
    match body st with
    | (st', Continue a) => (st', Continue a)
    | (st', Throw e) => handler e st'
    end.

Definition emit (o : Output) : Cmd unit :=
  fun st => (mkState (calls st) (output st ++ [o]) (measured st), Continue tt).

Definition log (msg : string) : Cmd unit := emit (Log msg).

Definition exit {A : Type} (code : Z) : Cmd A := throw (ExitError code).

Definition assertIsNotNull {A : Type} (x : option A) : Cmd A :=
  match x with
  | Some a => ret a
  | None => throw AssertionError
  end.

(** A call on the benchmark side. *)
Definition call (c : BenchCall) : Cmd unit :=
  fun st => (mkState (calls st ++ [c]) (output st) (measured st), Continue tt).

(** A call that throws when the node says so. *)
Definition callOrThrow (c : BenchCall) (error : option string) : Cmd unit :=
  call c ;;;
  match error with
  | Some s => throw (OtherError s)
  | None => ret tt
  end.

(** [BenchUtils.end(start)]. *)
Definition benchEnd : Cmd Time :=
  fun st =>
    (mkState (calls st) (output st) (S (measured st)),
     Continue (elapsed (measured st))).

Definition notesRootHash : Cmd Hash :=
  fun st => (st, Continue (rootHash benchmarkNode (calls st))).

Definition notesSize : Cmd Z :=
  fun st => (st, Continue (size benchmarkNode (calls st))).

(** The [for await] loop over the headers the iterator yields. *)
Fixpoint replay (headers : list Header) (totalTime : Time) : Cmd Time :=
  match headers with
  | [] => ret totalTime
  | header :: rest =>
      block <- assertIsNotNull (getBlock node header) ;;
      call (AddBlock block) ;;;
      t <- benchEnd ;;
      replay rest (timeAdd totalTime t)
  end.

(** [start]; the flags it parses are not used, and the node of the command
    is opened between the first two output events. *)
Definition start : Cmd unit :=
  emit (ActionStart "Opening node") ;;;
  emit (ActionStop "done.") ;;;
  emit (ActionStart "Opening benchmark node") ;;;
  call (SdkInit "~/.ironfishbenchmark") ;;;
  call CreateNode ;;;
  tryCatch
    (callOrThrow OpenDB (openDBError benchmarkNode) ;;;
     callOrThrow ChainOpen (chainOpenError benchmarkNode))
    (fun e => log (stack e)) ;;;
  emit (ActionStop "done.") ;;;
  (if isEmpty node
   then
     log ("Chain is too corrupt. Delete your DB at " ++ chainDatabasePath node) ;;;
     exit 0
   else ret tt) ;;;
  let blocksToBenchmark := 500%Z in
  (if (sequence (head node) <? blocksToBenchmark)%Z
   then
     log "Need to sync more blocks for testing." ;;;
     exit 0
   else ret tt) ;;;
  finalHeader <- assertIsNotNull (getHeaderAtSequence node blocksToBenchmark) ;;
  totalTime <- replay (iterateTo node (genesis node) finalHeader) timeZero ;;
  call RehashTree ;;;
  timeToRehashTree <- benchEnd ;;
  let totalTime := timeAdd totalTime timeToRehashTree in
  benchRootHash <- notesRootHash ;;
  let realRootHash := pastRoot node (noteCommitmentSize finalHeader) in
  log ("bnch hash: " ++ toHex benchRootHash) ;;;
  log ("real hash: " ++ toHex realRootHash) ;;;
  notes <- notesSize ;;
  log ("Rehashed tree of " ++ showNumber notes ++ " notes.") ;;;
  log ("Time to rehash tree: " ++ showTime timeToRehashTree ++ " ms.") ;;;
  log ("Benchmark complete in " ++ showTime totalTime ++ " ms.").

(** The blocks of a list of headers, when the chain has them all. *)
Fixpoint getBlocks (headers : list Header) : option (list Block) :=
  match headers with
  | [] => Some []
  | header :: rest =>
      match getBlock node header, getBlocks rest with
      | Some block, Some blocks => Some (block :: blocks)
      | _, _ => None
      end
  end.

(** The calls that replay into, or rehash, the benchmark tree. *)
Definition isReplayCall (c : BenchCall) : bool :=
  match c with
  | AddBlock _ | RehashTree => true
  | _ => false
  end.

(** The calls and the output of the opening phase, up to the second
    [action.stop]: [chain.open] is skipped when [openDB] throws, and the
    stack of what was thrown is logged. *)
Definition openingCalls : list BenchCall :=
  [SdkInit "~/.ironfishbenchmark"; CreateNode; OpenDB]
  ++ match openDBError benchmarkNode with
     | Some _ => []
     | None => [ChainOpen]
     end.

Definition openingOutput : list Output :=
  [ActionStart "Opening node"; ActionStop "done.";
   ActionStart "Opening benchmark node"]
  ++ match openDBError benchmarkNode, chainOpenError benchmarkNode with
     | Some s, _ => [Log s]
     | None, Some s => [Log s]
     | None, None => []
     end
  ++ [ActionStop "done."].

(** The total the loop has accumulated after [n] measurements. *)
Definition replayTime (n : nat) : Time :=
  fold_left timeAdd (map elapsed (List.seq 0 n)) timeZero.

End BenchmarkChain.

Arguments SdkInit {Block} dataDir.
Arguments CreateNode {Block}.
Arguments OpenDB {Block}.
Arguments ChainOpen {Block}.
Arguments AddBlock {Block} block.
Arguments RehashTree {Block}.
Arguments isReplayCall {Block} c.
Arguments mkState {Block} calls output measured.
Arguments calls {Block} s.
Arguments output {Block} s.
Arguments measured {Block} s.
Arguments isEmpty {Header Block Hash} c.
Arguments head {Header Block Hash} c.
Arguments genesis {Header Block Hash} c.
Arguments getHeaderAtSequence {Header Block Hash} c _.
Arguments iterateTo {Header Block Hash} c _ _.
Arguments getBlock {Header Block Hash} c _.
Arguments pastRoot {Header Block Hash} c _.
Arguments chainDatabasePath {Header Block Hash} c.
Arguments openDBError {Block Hash} b.
Arguments chainOpenError {Block Hash} b.
Arguments rootHash {Block Hash} b _.
Arguments size {Block Hash} b _.
Arguments getBlocks {Header Block Hash} node headers.
Arguments openingCalls {Block Hash} benchmarkNode.
Arguments openingOutput {Block Hash} benchmarkNode.
Arguments replayTime {Time} timeZero timeAdd elapsed n.
Arguments ret {Block A} a _.
Arguments seq {Block A B} c k _.
Arguments throw {Block A} e _.
Arguments tryCatch {Block} body handler _.
Arguments emit {Block} o _.
Arguments log {Block} msg _.
Arguments exit {Block A} code _.
Arguments assertIsNotNull {Block A} x _.
Arguments call {Block} c _.
Arguments callOrThrow {Block} c error _.
Arguments benchEnd {Block Time} elapsed _.
Arguments notesRootHash {Block Hash} benchmarkNode _.
Arguments notesSize {Block Hash} benchmarkNode _.
Arguments replay {Header Block Hash Time} timeAdd elapsed node headers totalTime _.
Arguments start {Header Block Hash Time} sequence noteCommitmentSize toHex
  showNumber showTime timeZero timeAdd elapsed node benchmarkNode _.

End Benchmark.

(** ** A sample chain and benchmark node

    Headers are their sequence, blocks carry the sequence of their header,
    hashes are already in hexadecimal, times are whole milliseconds. *)

Module Sample.

Definition showZ (n : Z) : string := NilZero.string_of_int (Z.to_int n).

Definition sequence (header : Z) : Z := header.

Definition noteCommitmentSize (header : Z) : Z := 3 * header.

Definition headers (first last : Z) : list Z :=
  map Z.of_nat (List.seq (Z.to_nat first) (Z.to_nat (last - first + 1))).

(** A chain of [height] blocks; its reference tree reports the past root
    [2222] at every size. *)
Definition chain (height : Z) : Benchmark.Chain Z Z string := {|
  Benchmark.isEmpty := height <=? 0;
  Benchmark.head := height;
  Benchmark.genesis := 1;
  Benchmark.getHeaderAtSequence := fun s =>
    if (1 <=? s) && (s <=? height) then Some s else None;
  Benchmark.iterateTo := headers;
  Benchmark.getBlock := fun header => Some header;
  Benchmark.pastRoot := fun _ => "2222"%string;
  Benchmark.chainDatabasePath := "~/.ironfish/databases/chain"%string
|}.

(** A benchmark node that opens, whose tree reports the root [root] and
    counts one note per block added. *)
Definition benchmarkNode (root : string) : Benchmark.BenchmarkNode Z string := {|
  Benchmark.openDBError := None;
  Benchmark.chainOpenError := None;
  Benchmark.rootHash := fun _ => root;
  Benchmark.size := fun calls =>
    Z.of_nat (length (filter (fun c => match c with
                                       | Benchmark.AddBlock _ => true
                                       | _ => false
                                       end) calls))
|}.

(** [start] on a chain of [height] blocks, every measurement taking two
    milliseconds. *)
Definition run (height : Z) (root : string)
  : Benchmark.State Z * Benchmark.Step unit :=
  Benchmark.start sequence noteCommitmentSize (fun h : string => h) showZ showZ
    0 Z.add (fun _ => 2) (chain height) (benchmarkNode root)
    (Benchmark.initial Z).

End Sample.

(** * The route account/getAccountTransaction

    The handler registered on the router.  The wallet, the account store
    and the note type are collaborators: an account is the answers it gives,
    the wallet and the serializers are functions, and calls on them are
    taken to return.  [request.end] gives the response back. *)

Module Rpc.

(** [RpcAccountDecryptedNote]. *)
Record RpcAccountDecryptedNote : Type := {
  owner : bool;
  value : string;
  memo : string;
  spent : bool
}.

End Rpc.

Module GetAccountTransaction.

(** [GetAccountTransactionRequest]. *)
Record Request : Type := {
  account : option string;
  hash : string
}.

Section Handler.

Variables Note Transaction TransactionValue RpcAccountTransaction : Type.

(** What the wallet stores for a note the account owns. *)
Record DecryptedNoteValue : Type := {
  spent : bool;
  note : Note
}.

(** What [wallet.decryptNotes] returns for a note of the transaction. *)
Record DecryptedNote : Type := {
  noteHash : Buffer;
  serializedNote : Buffer
}.

Record Account : Type := {
  name : string;
  id : string;
  getTransactionByUnsignedHash : Buffer -> option TransactionValue;
  getDecryptedNote : Buffer -> option DecryptedNoteValue
}.

(** The transaction of the response: the fields of
    [serializeRpcAccountTransaction], with [notes] and [status] set by the
    handler. *)
Record Serialized : Type := {
  serializedTransaction : RpcAccountTransaction;
  notes : list Rpc.RpcAccountDecryptedNote;
  status : string
}.

(** [GetAccountTransactionResponse]. *)
Record Response : Type := {
  responseAccount : string;
  transaction : option Serialized
}.

(** [getAccount(node, name)], [Buffer.from(hash, 'hex')],
    [transaction.transaction], [wallet.decryptNotes(tx, null, accounts)]
    followed by [get] on the map it returns, [new Note(buffer)], the methods
    of a note, [toString] of a bigint, and the two wallet serializers. *)
Variable getAccount : option string -> Account.
Variable bufferFromHex : string -> Buffer.
Variable transactionOf : TransactionValue -> Transaction.
Variable decryptNotes : Transaction -> list Account -> string -> option (list DecryptedNote).
Variable newNote : Buffer -> Note.
Variable memo : Note -> string.
Variable value : Note -> Z.
Variable bigintToString : Z -> string.
Variable serializeRpcAccountTransaction : TransactionValue -> RpcAccountTransaction.
Variable getTransactionStatus : Account -> TransactionValue -> string.

(** The body of the loop: the note pushed for one decrypted note. *)
Definition serializeNote (account : Account) (decryptedNote : DecryptedNote)
  : Rpc.RpcAccountDecryptedNote :=
  let noteHash := noteHash decryptedNote in
  let decryptedNoteForOwner := getDecryptedNote account noteHash in
  let owner :=
    match decryptedNoteForOwner with Some _ => true | None => false end in
  let spent :=
    match decryptedNoteForOwner with Some d => spent d | None => false end in
  let note :=
    match decryptedNoteForOwner with
    | Some d => note d
    | None => newNote (serializedNote decryptedNote)
    end in
  {| Rpc.owner := owner;
     Rpc.memo := memo note;
     Rpc.value := bigintToString (value note);
     Rpc.spent := spent |}.

(** [for await (const decryptedNote of notes) { ...; serializedNotes.push(...) }]. *)
Definition serializeNotes (account : Account) (notes : list DecryptedNote)
  : list Rpc.RpcAccountDecryptedNote :=
  fold_left (fun serializedNotes decryptedNote =>
               serializedNotes ++ [serializeNote account decryptedNote])
            notes [].

Definition handler (request : Request) : Response :=
  let account := getAccount (GetAccountTransaction.account request) in
  let transactionHash := bufferFromHex (hash request) in
  match getTransactionByUnsignedHash account transactionHash with
  | None =>
      {| responseAccount := name account; transaction := None |}
  | Some transaction =>
      let notesByAccount :=
        decryptNotes (transactionOf transaction) [account] in
      let notes :=
        match notesByAccount (id account) with
        | Some l => l
        | None => []
        end in
      let serializedNotes := serializeNotes account notes in
      let serializedTransaction := serializeRpcAccountTransaction transaction in
      let status := getTransactionStatus account transaction in
      let serialized :=
        {| serializedTransaction := serializedTransaction;
           notes := serializedNotes;
           status := status |} in
      {| responseAccount := name account; transaction := Some serialized |}
  end.

End Handler.

Arguments spent {Note} d.
Arguments note {Note} d.
Arguments name {Note TransactionValue} a.
Arguments id {Note TransactionValue} a.
Arguments getTransactionByUnsignedHash {Note TransactionValue} a _.
Arguments getDecryptedNote {Note TransactionValue} a _.
Arguments serializedTransaction {RpcAccountTransaction} s.
Arguments notes {RpcAccountTransaction} s.
Arguments status {RpcAccountTransaction} s.
Arguments responseAccount {RpcAccountTransaction} r.
Arguments transaction {RpcAccountTransaction} r.
Arguments serializeNote {Note TransactionValue} newNote memo value bigintToString
  account decryptedNote.
Arguments serializeNotes {Note TransactionValue} newNote memo value bigintToString
  account notes.
Arguments handler {Note Transaction TransactionValue RpcAccountTransaction}
  getAccount bufferFromHex transactionOf decryptNotes newNote memo value
  bigintToString serializeRpcAccountTransaction getTransactionStatus request.

End GetAccountTransaction.

(** A sample wallet: notes are (memo, value) pairs, a transaction is the
    list of its notes, the account [alice] owns the note whose hash is
    [01] and has spent it. *)

Module SampleWallet.

Definition showZ (n : Z) : string := NilZero.string_of_int (Z.to_int n).

Definition alice : GetAccountTransaction.Account (string * Z) (list (GetAccountTransaction.DecryptedNote)) := {|
  GetAccountTransaction.name := "alice"%string;
  GetAccountTransaction.id := "a1"%string;
  GetAccountTransaction.getTransactionByUnsignedHash := fun h =>
    match h with
    | [xaa] =>
        Some [ {| GetAccountTransaction.noteHash := [x01];
                  GetAccountTransaction.serializedNote := [x0a] |};
               {| GetAccountTransaction.noteHash := [x02];
                  GetAccountTransaction.serializedNote := [x0b] |} ]
    | _ => None
    end;
  GetAccountTransaction.getDecryptedNote := fun h =>
    match h with
    | [x01] =>
        Some {| GetAccountTransaction.spent := true;
                GetAccountTransaction.note := ("rent"%string, 7) |}
    | _ => None
    end
|}.

Definition handler (request : GetAccountTransaction.Request)
  : GetAccountTransaction.Response nat :=
  GetAccountTransaction.handler
    (fun _ => alice)
    (fun h => if String.eqb h "aa" then [xaa] else [])
    (fun tx => tx)
    (fun tx _ accountId => if String.eqb accountId "a1" then Some tx else None)
    (fun _ => (""%string, 0))
    fst snd showZ
    (fun tx => length tx)
    (fun _ _ => "confirmed"%string)
    request.

End SampleWallet.

(** ** The layout and the decoder as the specification words them *)

(** [sibling_hash | side_tag | other_index | optional second index], the
    indices as 4-byte groups. *)
Definition sideTag (s : Side) : Z :=
  match s with
  | Left => 0
  | Right => 1
  end.

Definition layout (value : NodeValue) : Buffer :=
  hashOfSibling value
  ++ [byte_of_Z (sideTag (side value))]
  ++ Bufio.u32_bytes (otherIndex value)
  ++ match rightIndex value with
     | Some r => Bufio.u32_bytes r
     | None => []
     end.

(** Decoding driven by the buffer length alone: what is read, and where the
    reader stops. *)
Definition decodeByLength (b : Buffer) : result (NodeValue * Bufio.BufferReader) :=
  let n := length b in
  if (n <? 32)%nat then Err (EncodingError 0 Bufio.OUT_OF_BOUNDS_READ)
  else if (n <? 33)%nat then Err (EncodingError 32 Bufio.OUT_OF_BOUNDS_READ)
  else if (n <? 37)%nat then Err (EncodingError 33 Bufio.OUT_OF_BOUNDS_READ)
  else if Bufio.byteAt b 32 =? 0 then
    if (n =? 37)%nat then
      Ok (LeftNodeValue (firstn 32 b) (Bufio.u32_at b 33) None,
          Bufio.mkReader b 37)
    else if (n <? 41)%nat then Err (EncodingError 37 Bufio.OUT_OF_BOUNDS_READ)
    else
      Ok (LeftNodeValue (firstn 32 b) (Bufio.u32_at b 33) (Some (Bufio.u32_at b 37)),
          Bufio.mkReader b 41)
  else
    Ok (RightNodeValue (firstn 32 b) (Bufio.u32_at b 33), Bufio.mkReader b 37).

(** The two sizes a tag admits: 37 bytes under either tag, 41 bytes under
    the left tag only. *)
Definition lengthMatchesTag (b : Buffer) : bool :=
  if Bufio.byteAt b 32 =? 0
  then (length b =? 37)%nat || (length b =? 41)%nat
  else (length b =? 37)%nat.

(** A buffer that ends inside a field the reader goes on to read. *)
Definition truncated (b : Buffer) : bool :=
  (length b <? 37)%nat
  || ((Bufio.byteAt b 32 =? 0) && (37 <? length b)%nat && (length b <? 41)%nat).

Definition isReadError {A : Type} (c : result A) : bool :=
  match c with
  | Err (EncodingError _ reason) => String.eqb reason Bufio.OUT_OF_BOUNDS_READ
  | _ => false
  end.

(** The size the two booleans determine, as [getSize] has it. *)
Definition sizeByShape (isLeft hasRightIndex : bool) : nat :=
  if isLeft && hasRightIndex then 41%nat else 37%nat.

(** A left node is open while it has no right index, and paired once it
    has one; a right node is always paired. *)
Definition isOpen (value : NodeValue) : bool :=
  isLeft value && negb (hasRightIndex value).

(** The size as the specification words it: 37 bytes for a paired or right
    node, 41 bytes for an open left node. *)
Definition claimedSize (value : NodeValue) : nat :=
  if isOpen value then 41%nat else 37%nat.

(** The byte of weight [256 ^ k] of an index. *)
Definition digit (n : Z) (k : nat) : Z := n / 2 ^ (8 * Z.of_nat k) mod 256.

(** The four bytes from offset [off] hold [n] least significant byte
    first. *)
Definition littleEndianAt (b : Buffer) (off : nat) (n : Z) : Prop :=
  Bufio.byteAt b off = digit n 0
  /\ Bufio.byteAt b (off + 1) = digit n 1
  /\ Bufio.byteAt b (off + 2) = digit n 2
  /\ Bufio.byteAt b (off + 3) = digit n 3.

(** The offset at which the reader of [deserialize] stops, when it returns. *)
Definition consumed (b : Buffer) : option nat :=
  match NodeEncoding.deserializeFrom (Bufio.read b) with
  | Ok (_, reader) => Some (Bufio.r_offset reader)
  | Err _ => None
  end.

(** A writer that has filled [a] and still has [r] to fill. *)
Definition filling (a r : Buffer) : Bufio.StaticWriter :=
  Bufio.mkWriter (a ++ r) (length a).

(** ** Sample nodes and buffers *)

Definition sampleHash : Buffer := repeat xab 32.

(** A left node whose pair is complete; 16909060 is 0x01020304. *)
Definition samplePaired : NodeValue := LeftNodeValue sampleHash 16909060 (Some 6).

(** A left node still waiting for its right sibling. *)
Definition sampleOpen : NodeValue := LeftNodeValue sampleHash 5 None.

Definition sampleRight : NodeValue := RightNodeValue sampleHash 4.

(** A right-tagged buffer of 41 bytes: four bytes more than a right node
    encodes to. *)
Definition surplusRight : Buffer :=
  sampleHash ++ [x01; x04; x00; x00; x00; xff; xff; xff; xff].

(** A left-tagged buffer of 39 bytes: two bytes after the first index. *)
Definition truncatedLeft : Buffer :=
  sampleHash ++ [x00; x05; x00; x00; x00; x06; x00].

(** A buffer of 37 bytes whose tag byte is 2. *)
Definition tagTwo : Buffer := sampleHash ++ [x02; x09; x00; x00; x00].

(** ** Nodes outside the valid range, and buffers re-encoded *)

(** What the writer accepts: a 32-byte hash and indices that are safe
    integers. *)
Definition isSerializable (value : NodeValue) : bool :=
  (length (hashOfSibling value) =? 32)%nat
  && Bufio.isSafeInteger (otherIndex value)
  && match rightIndex value with
     | Some r => Bufio.isSafeInteger r
     | None => true
     end.

(** The node with each index reduced to its low 32 bits. *)
Definition wrapIndices (value : NodeValue) : NodeValue :=
  match value with
  | LeftNodeValue h p r =>
      LeftNodeValue h (p mod 2 ^ 32) (option_map (fun r => r mod 2 ^ 32) r)
  | RightNodeValue h l => RightNodeValue h (l mod 2 ^ 32)
  end.

(** The bytes of [b] that [deserialize] reads, the tag byte replaced by 0
    or 1. *)
Definition canonical (b : Buffer) : Buffer :=
  firstn 32 b
  ++ [if Bufio.byteAt b 32 =? 0 then x00 else x01]
  ++ firstn 4 (skipn 33 b)
  ++ (if (Bufio.byteAt b 32 =? 0) && (37 <? length b)%nat
      then firstn 4 (skipn 37 b)
      else []).

(** ** Blocks the replay reaches, and chains with something missing *)

(** The blocks of the headers before the first one whose block is missing. *)
Fixpoint availableBlocks {Header Block Hash : Type}
    (node : Benchmark.Chain Header Block Hash) (headers : list Header)
  : list Block :=
  match headers with
  | [] => []
  | header :: rest =>
      match Benchmark.getBlock node header with
      | Some block => block :: availableBlocks node rest
      | None => []
      end
  end.

Module SampleGap.

(** The sample chain of 600 blocks, the block of header [hole] missing. *)
Definition chain (hole : Z) : Benchmark.Chain Z Z string := {|
  Benchmark.isEmpty := false;
  Benchmark.head := 600;
  Benchmark.genesis := 1;
  Benchmark.getHeaderAtSequence := fun s =>
    if (1 <=? s) && (s <=? 600) then Some s else None;
  Benchmark.iterateTo := Sample.headers;
  Benchmark.getBlock := fun header =>
    if header =? hole then None else Some header;
  Benchmark.pastRoot := fun _ => "2222"%string;
  Benchmark.chainDatabasePath := "~/.ironfish/databases/chain"%string
|}.

(** A chain whose head is at sequence 600 and that finds no header by
    sequence. *)
Definition unindexed : Benchmark.Chain Z Z string := {|
  Benchmark.isEmpty := false;
  Benchmark.head := 600;
  Benchmark.genesis := 1;
  Benchmark.getHeaderAtSequence := fun _ => None;
  Benchmark.iterateTo := Sample.headers;
  Benchmark.getBlock := fun header => Some header;
  Benchmark.pastRoot := fun _ => "2222"%string;
  Benchmark.chainDatabasePath := "~/.ironfish/databases/chain"%string
|}.

(** A benchmark node whose database fails to open. *)
Definition lockedNode : Benchmark.BenchmarkNode Z string := {|
  Benchmark.openDBError := Some "Error: database is locked"%string;
  Benchmark.chainOpenError := None;
  Benchmark.rootHash := fun _ => "1111"%string;
  Benchmark.size := fun _ => 0
|}.

Definition run (node : Benchmark.Chain Z Z string)
    (benchmarkNode : Benchmark.BenchmarkNode Z string)
  : Benchmark.State Z * Benchmark.Step unit :=
  Benchmark.start Sample.sequence Sample.noteCommitmentSize
    (fun h : string => h) Sample.showZ Sample.showZ 0 Z.add (fun _ => 2)
    node benchmarkNode (Benchmark.initial Z).

End SampleGap.

(** * Properties *)

(** ** Bytes *)

Lemma Z_of_byte_range (b : byte) : 0 <= Z_of_byte b < 256.
Proof.
  unfold Z_of_byte. pose proof (Byte.to_N_bounded b). lia.
Qed.

Lemma Z_of_byte_of_Z (z : Z) : Z_of_byte (byte_of_Z z) = z mod 256.
Proof.
  unfold Z_of_byte, byte_of_Z.
  assert (Hr : 0 <= z mod 256 < 256) by (apply Z.mod_pos_bound; lia).
  destruct (Byte.of_N (Z.to_N (z mod 256))) as [b|] eqn:E.
  - apply Byte.to_of_N in E. rewrite E. lia.
  - apply Byte.of_N_None_iff in E. lia.
Qed.

Lemma byte_of_Z_of_byte (b : byte) : byte_of_Z (Z_of_byte b) = b.
Proof.
  unfold byte_of_Z. pose proof (Z_of_byte_range b) as Hr.
  rewrite Z.mod_small by lia. unfold Z_of_byte.
  rewrite N2Z.id, Byte.of_to_N. reflexivity.
Qed.

Arguments byte_of_Z : simpl never.
Arguments Z_of_byte : simpl never.

(** ** The 32-bit fields *)

Lemma u32_bytes_length (n : Z) : length (Bufio.u32_bytes n) = 4%nat.
Proof. reflexivity. Qed.

Lemma u32_bytes_digits (n : Z) :
  0 <= n < 2 ^ 32 ->
  Bufio.u32_bytes n =
    [byte_of_Z (n mod 256); byte_of_Z (n / 2 ^ 8 mod 256);
     byte_of_Z (n / 2 ^ 16 mod 256); byte_of_Z (n / 2 ^ 24 mod 256)].
Proof.
  intros Hn. unfold Bufio.u32_bytes. cbv zeta.
  rewrite !Z.shiftr_div_pow2 by lia.
  rewrite (Z.mod_small n (2 ^ 32)) by lia.
  rewrite !Z.div_div by lia.
  change (2 ^ 8 * 2 ^ 8) with (2 ^ 16).
  change (2 ^ 16 * 2 ^ 8) with (2 ^ 24).
  f_equal; [| f_equal; [| f_equal; [| f_equal]]].
  all: apply (f_equal Z_of_byte) || idtac.
  all: rewrite <- (byte_of_Z_of_byte (byte_of_Z _)) at 1;
       rewrite Z_of_byte_of_Z; reflexivity.
Qed.

Lemma byteAt_app (a l : Buffer) (k : nat) :
  Bufio.byteAt (a ++ l) (length a + k) = Bufio.byteAt l k.
Proof.
  unfold Bufio.byteAt. rewrite app_nth2 by lia.
  replace (length a + k - length a)%nat with k by lia. reflexivity.
Qed.

Lemma u32_at_app (a l : Buffer) (k : nat) :
  Bufio.u32_at (a ++ l) (length a + k) = Bufio.u32_at l k.
Proof.
  unfold Bufio.u32_at.
  rewrite <- !Nat.add_assoc, !byteAt_app. reflexivity.
Qed.

Lemma u32_at_u32_bytes (n : Z) (rest : Buffer) :
  0 <= n < 2 ^ 32 -> Bufio.u32_at (Bufio.u32_bytes n ++ rest) 0 = n.
Proof.
  intros Hn. rewrite u32_bytes_digits by assumption.
  unfold Bufio.u32_at, Bufio.byteAt. simpl nth.
  rewrite !Z_of_byte_of_Z, !Z.mod_mod by lia.
  change (2 ^ 8) with 256. change (2 ^ 16) with 65536.
  change (2 ^ 24) with 16777216. change (2 ^ 32) with 4294967296 in Hn.
  Z.div_mod_to_equations. lia.
Qed.

(** ** The reader, step by step *)

Section Reader.
Import Bufio.

Lemma r_check_ok (size : nat) (br : BufferReader) :
  (r_offset br + size <= length (r_data br))%nat -> r_check size br = Ok tt.
Proof.
  intros H. unfold r_check.
  destruct (Nat.ltb_spec (length (r_data br)) (r_offset br + size)); [lia | reflexivity].
Qed.

Lemma r_check_err (size : nat) (br : BufferReader) :
  (length (r_data br) < r_offset br + size)%nat ->
  r_check size br = Err (EncodingError (r_offset br) OUT_OF_BOUNDS_READ).
Proof.
  intros H. unfold r_check.
  destruct (Nat.ltb_spec (length (r_data br)) (r_offset br + size)); [reflexivity | lia].
Qed.

(** [deserialize] decodes by the length of the buffer and the tag byte. *)
Lemma deserializeFrom_read (b : Buffer) :
  NodeEncoding.deserializeFrom (read b) = decodeByLength b.
Proof.
  unfold NodeEncoding.deserializeFrom, decodeByLength, readHash, readBytes,
    readU8, readU32, read.
  cbv zeta.
  destruct (Nat.ltb_spec (length b) 32) as [H32|H32].
  { rewrite r_check_err by (simpl; lia). reflexivity. }
  rewrite r_check_ok by (simpl; lia). cbn [bind r_data r_offset Nat.add].
  destruct (Nat.ltb_spec (length b) 33) as [H33|H33].
  { rewrite r_check_err by (simpl; lia). reflexivity. }
  rewrite r_check_ok by (simpl; lia). cbn [bind r_data r_offset Nat.add].
  destruct (Nat.ltb_spec (length b) 37) as [H37|H37].
  { rewrite r_check_err by (simpl; lia). reflexivity. }
  rewrite r_check_ok by (simpl; lia). cbn [bind r_data r_offset Nat.add].
  destruct (byteAt b 32 =? 0); [| reflexivity].
  unfold left. cbn [r_data r_offset].
  destruct (Nat.eqb_spec (length b) 37) as [E|E].
  { rewrite E. reflexivity. }
  destruct (Nat.ltb_spec 0 (length b - 37)) as [_|?]; [| lia].
  destruct (Nat.ltb_spec (length b) 41) as [H41|H41].
  { rewrite r_check_err by (simpl; lia). reflexivity. }
  rewrite r_check_ok by (simpl; lia). reflexivity.
Qed.

End Reader.

(** ** The writer, step by step *)

Section Writer.
Import Bufio.

Lemma blit_app (a r src : Buffer) :
  blit (a ++ r) (length a) src = (a ++ src) ++ skipn (length src) r.
Proof.
  unfold blit.
  rewrite firstn_app, firstn_all, Nat.sub_diag, firstn_O, app_nil_r.
  rewrite skipn_app.
  rewrite (skipn_all2 a) by lia.
  replace (length a + length src - length a)%nat with (length src) by lia.
  rewrite <- app_assoc. reflexivity.
Qed.

Lemma writeBytes_filling (a r v : Buffer) :
  (length v <= length r)%nat ->
  writeBytes v (filling a r) = Ok (filling (a ++ v) (skipn (length v) r)).
Proof.
  intros H. unfold writeBytes, w_check, filling. cbn [w_data w_offset].
  rewrite length_app.
  destruct (Nat.ltb_spec (length a + length r) (length a + length v)); [lia |].
  cbn [bind]. rewrite blit_app, length_app. reflexivity.
Qed.

Lemma writeU8_filling (a r : Buffer) (x : byte) (v : Z) :
  isSafeInteger v = true ->
  writeU8 v (filling a (x :: r)) = Ok (filling (a ++ [byte_of_Z v]) r).
Proof.
  intros Hv. unfold writeU8, w_check, filling. cbn [w_data w_offset].
  rewrite length_app. cbn [length].
  destruct (Nat.ltb_spec (length a + S (length r)) (length a + 1)); [lia |].
  cbn [bind]. rewrite Hv. cbn [enforce bind].
  rewrite blit_app, length_app. reflexivity.
Qed.

Lemma writeU32_filling (a r : Buffer) (x0 x1 x2 x3 : byte) (v : Z) :
  isSafeInteger v = true ->
  writeU32 v (filling a (x0 :: x1 :: x2 :: x3 :: r))
  = Ok (filling (a ++ u32_bytes v) r).
Proof.
  intros Hv. unfold writeU32, w_check, filling. cbn [w_data w_offset].
  rewrite length_app. cbn [length].
  destruct (Nat.ltb_spec (length a + S (S (S (S (length r))))) (length a + 4)); [lia |].
  cbn [bind]. rewrite Hv. cbn [enforce bind].
  rewrite blit_app, length_app. reflexivity.
Qed.

Lemma render_filling (a : Buffer) : render (filling a []) = Ok a.
Proof.
  unfold render, filling. cbn [w_data w_offset].
  rewrite app_nil_r, Nat.eqb_refl. reflexivity.
Qed.

Lemma isU32_range (n : Z) : isU32 n = true -> 0 <= n < 2 ^ 32.
Proof. unfold isU32. lia. Qed.

Lemma isU32_safe (n : Z) : isU32 n = true -> isSafeInteger n = true.
Proof. unfold isU32, isSafeInteger. lia. Qed.

(** On a valid node [serialize] returns, and returns the layout. *)
Lemma serialize_layout (value : NodeValue) :
  isValid value = true -> NodeEncoding.serialize value = Ok (layout value).
Proof.
  intros Hv. unfold NodeEncoding.serialize, layout, writeHash.
  destruct value as [h p [r|] | h l]; cbn in Hv;
    repeat (apply andb_prop in Hv; destruct Hv as [Hv ?]);
    apply Nat.eqb_eq in Hv;
    cbn [hashOfSibling side sideTag otherIndex rightIndex NodeEncoding.getSize];
    rewrite Hv; cbn [Nat.eqb enforce bind];
    change (write ?n) with (filling [] (repeat x00 n));
    rewrite writeBytes_filling by (rewrite Hv; cbn; lia);
    rewrite Hv; cbn [bind Nat.add repeat skipn app];
    rewrite writeU8_filling by reflexivity; cbn [bind];
    rewrite writeU32_filling by (apply isU32_safe; assumption); cbn [bind].
  - rewrite writeU32_filling by (apply isU32_safe; assumption). cbn [bind].
    rewrite render_filling, <- !app_assoc. reflexivity.
  - rewrite render_filling, <- !app_assoc, app_nil_r. reflexivity.
  - rewrite render_filling, <- !app_assoc, app_nil_r. reflexivity.
Qed.

End Writer.

(** ** What the layout holds at each offset *)

Section Layout.
Variable value : NodeValue.
Hypothesis Hvalid : isValid value = true.

Lemma valid_hash_length : length (hashOfSibling value) = 32%nat.
Proof.
  destruct value as [h p r | h l]; cbn in Hvalid |- *;
    repeat (apply andb_prop in Hvalid; destruct Hvalid as [Hvalid ?]);
    apply Nat.eqb_eq; assumption.
Qed.

Lemma valid_otherIndex : 0 <= otherIndex value < 2 ^ 32.
Proof.
  apply isU32_range.
  destruct value as [h p r | h l]; cbn in Hvalid |- *;
    repeat (apply andb_prop in Hvalid; destruct Hvalid as [Hvalid ?]);
    assumption.
Qed.

Lemma valid_rightIndex (r : Z) : rightIndex value = Some r -> 0 <= r < 2 ^ 32.
Proof.
  intros Hr. apply isU32_range.
  destruct value as [h p r' | h l]; cbn in Hvalid, Hr; [| discriminate].
  subst r'. apply andb_prop in Hvalid. tauto.
Qed.

Lemma layout_length :
  length (layout value) = if hasRightIndex value then 41%nat else 37%nat.
Proof.
  unfold layout, hasRightIndex. rewrite !length_app, valid_hash_length.
  destruct (rightIndex value); reflexivity.
Qed.

Lemma layout_hash : firstn 32 (layout value) = hashOfSibling value.
Proof.
  unfold layout. rewrite <- valid_hash_length at 1.
  rewrite firstn_app, firstn_all, Nat.sub_diag, firstn_O, app_nil_r.
  reflexivity.
Qed.

Lemma layout_tag : Bufio.byteAt (layout value) 32 = sideTag (side value).
Proof.
  unfold layout. rewrite <- valid_hash_length.
  rewrite <- (Nat.add_0_r (length _)), byteAt_app.
  unfold Bufio.byteAt. cbn [app nth]. rewrite Z_of_byte_of_Z.
  destruct (side value); reflexivity.
Qed.

Lemma layout_at (k : nat) :
  Bufio.byteAt (layout value) (33 + k)
  = Bufio.byteAt (Bufio.u32_bytes (otherIndex value)
                  ++ match rightIndex value with
                     | Some r => Bufio.u32_bytes r
                     | None => []
                     end) k.
Proof.
  unfold layout. rewrite <- valid_hash_length.
  change (S (length (hashOfSibling value)) + k)%nat
    with (S (length (hashOfSibling value) + k)).
  rewrite (app_assoc (hashOfSibling value)).
  replace (S (length (hashOfSibling value) + k))
    with (length (hashOfSibling value ++ [byte_of_Z (sideTag (side value))]) + k)%nat
    by (rewrite length_app; cbn [length]; lia).
  apply byteAt_app.
Qed.

Lemma layout_u32_at (k : nat) :
  Bufio.u32_at (layout value) (33 + k)
  = Bufio.u32_at (Bufio.u32_bytes (otherIndex value)
                  ++ match rightIndex value with
                     | Some r => Bufio.u32_bytes r
                     | None => []
                     end) k.
Proof.
  unfold Bufio.u32_at.
  rewrite <- !Nat.add_assoc, !layout_at. reflexivity.
Qed.

Lemma layout_otherIndex : Bufio.u32_at (layout value) 33 = otherIndex value.
Proof.
  change 33%nat with (33 + 0)%nat. rewrite layout_u32_at.
  apply u32_at_u32_bytes, valid_otherIndex.
Qed.

Lemma layout_rightIndex (r : Z) :
  rightIndex value = Some r -> Bufio.u32_at (layout value) 37 = r.
Proof.
  intros Hr. pose proof (valid_rightIndex r Hr) as Hrange.
  change 37%nat with (33 + 4)%nat. rewrite layout_u32_at, Hr.
  change 4%nat with (length (Bufio.u32_bytes (otherIndex value)) + 0)%nat.
  rewrite u32_at_app.
  rewrite <- (app_nil_r (Bufio.u32_bytes r)).
  apply u32_at_u32_bytes, Hrange.
Qed.

Lemma valid_right_no_rightIndex : side value = Right -> rightIndex value = None.
Proof. destruct value; [discriminate | reflexivity]. Qed.

(** Decoding the layout gives the node back, the reader at the end. *)
Lemma decode_layout :
  decodeByLength (layout value)
  = Ok (value, Bufio.mkReader (layout value) (length (layout value))).
Proof.
  unfold decodeByLength. cbv zeta.
  rewrite layout_tag, layout_hash, layout_otherIndex, layout_length.
  pose proof layout_rightIndex as Hri.
  destruct value as [h p [r|] | h l]; cbn [side sideTag hasRightIndex rightIndex];
    cbn [Nat.ltb Nat.leb Nat.eqb Z.eqb hashOfSibling otherIndex].
  - rewrite (Hri r) by reflexivity. reflexivity.
  - reflexivity.
  - reflexivity.
Qed.

End Layout.

Example serialize_samplePaired :
  NodeEncoding.serialize samplePaired
  = Ok (sampleHash ++ [x00; x04; x03; x02; x01; x06; x00; x00; x00]).
Proof. vm_compute. reflexivity. Qed.

Example serialize_sampleOpen :
  NodeEncoding.serialize sampleOpen = Ok (sampleHash ++ [x00; x05; x00; x00; x00]).
Proof. vm_compute. reflexivity. Qed.

Example serialize_sampleRight :
  NodeEncoding.serialize sampleRight = Ok (sampleHash ++ [x01; x04; x00; x00; x00]).
Proof. vm_compute. reflexivity. Qed.

Example serialize_short_hash :
  NodeEncoding.serialize (RightNodeValue [x01; x02] 4)
  = Err (EnforceError "value" "32-byte hash").
Proof. vm_compute. reflexivity. Qed.

Example deserialize_samplePaired :
  NodeEncoding.deserialize
    (sampleHash ++ [x00; x04; x03; x02; x01; x06; x00; x00; x00])
  = Ok samplePaired.
Proof. vm_compute. reflexivity. Qed.

Example deserialize_truncatedLeft :
  NodeEncoding.deserialize truncatedLeft
  = Err (EncodingError 37 Bufio.OUT_OF_BOUNDS_READ).
Proof. vm_compute. reflexivity. Qed.

Example deserialize_empty :
  NodeEncoding.deserialize [] = Err (EncodingError 0 Bufio.OUT_OF_BOUNDS_READ).
Proof. vm_compute. reflexivity. Qed.

(** ** Round trip *)

(** C1: for every valid node value (32-byte sibling hash, indices that fit
    32 unsigned bits), serializing and then deserializing the bytes gives
    the node value back. *)
Theorem deserialize_serialize (value : NodeValue) :
  isValid value = true ->
  (b <- NodeEncoding.serialize value ;; NodeEncoding.deserialize b) = Ok value.
Proof.
  intros Hv. rewrite serialize_layout by assumption. cbn [bind].
  unfold NodeEncoding.deserialize.
  rewrite deserializeFrom_read, decode_layout by assumption. reflexivity.
Qed.

Lemma deserialize_serialize_witness :
  isValid samplePaired = true
  /\ (b <- NodeEncoding.serialize samplePaired ;; NodeEncoding.deserialize b)
     = Ok samplePaired.
Proof.
  split; [reflexivity | apply (deserialize_serialize samplePaired); reflexivity].
Defined.

(** ** Buffers of the wrong length *)

(** C2, as stated, fails: a right-tagged buffer of 41 bytes has none of the
    sizes valid for its tag, and [deserialize] returns a node from it. *)
Lemma deserialize_surplus_counterexample :
  lengthMatchesTag surplusRight = false
  /\ NodeEncoding.deserialize surplusRight = Ok (RightNodeValue sampleHash 4).
Proof. split; vm_compute; reflexivity. Qed.

(** C2, amended: [deserialize] fails exactly on a truncated buffer, one of
    fewer than 37 bytes or a left-tagged one of 38 to 40 bytes, and then with
    the reader's out-of-bounds error; every other buffer decodes to a node,
    bytes past the last field being ignored. *)
Theorem deserialize_fails_iff_truncated (b : Buffer) :
  isReadError (NodeEncoding.deserialize b) = truncated b
  /\ isOk (NodeEncoding.deserialize b) = negb (truncated b).
Proof.
  unfold NodeEncoding.deserialize. rewrite deserializeFrom_read.
  unfold decodeByLength, truncated. cbv zeta.
  destruct (Nat.ltb_spec (length b) 32);
    [ destruct (Nat.ltb_spec (length b) 37); [split; reflexivity | lia] |].
  destruct (Nat.ltb_spec (length b) 33);
    [ destruct (Nat.ltb_spec (length b) 37); [split; reflexivity | lia] |].
  destruct (Nat.ltb_spec (length b) 37); [split; reflexivity |].
  destruct (Bufio.byteAt b 32 =? 0); [| split; reflexivity].
  destruct (Nat.eqb_spec (length b) 37) as [E|E].
  { rewrite E. split; reflexivity. }
  destruct (Nat.ltb_spec 37 (length b)); [| lia].
  destruct (Nat.ltb_spec (length b) 41); split; reflexivity.
Qed.

(** ** Sizes *)

Lemma right_hasRightIndex (value : NodeValue) :
  isLeft value = false -> hasRightIndex value = false.
Proof. destruct value; [discriminate | reflexivity]. Qed.

(** C3, as stated, fails: the two sizes are the other way round.  The
    paired left node [samplePaired] serializes to 41 bytes, not the 37 of a
    paired node, and the open left node [sampleOpen] to 37 bytes, not 41. *)
Lemma serialize_length_claimed_counterexample :
  isValid samplePaired = true
  /\ isOpen samplePaired = false
  /\ claimedSize samplePaired = 37%nat
  /\ NodeEncoding.serialize samplePaired
     = Ok (sampleHash ++ [x00; x04; x03; x02; x01; x06; x00; x00; x00])
  /\ length (sampleHash ++ [x00; x04; x03; x02; x01; x06; x00; x00; x00]) = 41%nat
  /\ isValid sampleOpen = true
  /\ isOpen sampleOpen = true
  /\ claimedSize sampleOpen = 41%nat
  /\ NodeEncoding.serialize sampleOpen = Ok (sampleHash ++ [x00; x05; x00; x00; x00])
  /\ length (sampleHash ++ [x00; x05; x00; x00; x00]) = 37%nat.
Proof. do 9 (split; [vm_compute; reflexivity |]). vm_compute. reflexivity. Qed.

(** C3, amended: on a valid node [serialize] returns a buffer whose length
    is fixed by "isLeft" and "hasRightIndex" alone: 41 bytes for a left node
    with a recorded right index (a paired left node), 37 bytes for a right
    node and for a left node without right index (an open left node); no
    other size occurs. *)
Theorem serialize_length_by_shape (value : NodeValue) :
  isValid value = true ->
  exists b,
    NodeEncoding.serialize value = Ok b
    /\ length b = sizeByShape (isLeft value) (hasRightIndex value)
    /\ (length b = 37%nat \/ length b = 41%nat).
Proof.
  intros Hv. exists (layout value).
  split; [apply serialize_layout; assumption |].
  rewrite layout_length by assumption. unfold sizeByShape.
  destruct (isLeft value) eqn:Hl.
  - destruct (hasRightIndex value); cbn; auto.
  - rewrite (right_hasRightIndex value Hl). cbn. auto.
Qed.

Lemma serialize_length_by_shape_witness :
  isValid sampleRight = true
  /\ exists b,
       NodeEncoding.serialize sampleRight = Ok b
       /\ length b = sizeByShape (isLeft sampleRight) (hasRightIndex sampleRight)
       /\ (length b = 37%nat \/ length b = 41%nat).
Proof.
  split; [reflexivity | apply (serialize_length_by_shape sampleRight); reflexivity].
Defined.

(** C4: [getSize] depends on the shape of the node only (its side and
    whether it has a right index), and on a valid node it is the length of
    the buffer [serialize] returns. *)
Theorem getSize_serialize (value : NodeValue) :
  isValid value = true ->
  (forall other : NodeValue,
      side other = side value ->
      hasRightIndex other = hasRightIndex value ->
      NodeEncoding.getSize other = NodeEncoding.getSize value)
  /\ exists b,
       NodeEncoding.serialize value = Ok b
       /\ length b = NodeEncoding.getSize value.
Proof.
  intros Hv. split.
  - intros other Hs Hr.
    destruct value as [h p [r|] | h l], other as [h' p' [r'|] | h' l'];
      cbn in Hs, Hr; try discriminate; reflexivity.
  - exists (layout value). split; [apply serialize_layout; assumption |].
    rewrite layout_length by assumption.
    destruct value as [h p [r|] | h l]; reflexivity.
Qed.

Lemma getSize_serialize_witness :
  isValid sampleOpen = true
  /\ ((forall other : NodeValue,
          side other = side sampleOpen ->
          hasRightIndex other = hasRightIndex sampleOpen ->
          NodeEncoding.getSize other = NodeEncoding.getSize sampleOpen)
      /\ exists b,
           NodeEncoding.serialize sampleOpen = Ok b
           /\ length b = NodeEncoding.getSize sampleOpen).
Proof.
  split; [reflexivity | apply (getSize_serialize sampleOpen); reflexivity].
Defined.

(** ** Field order and byte order *)

(** C5: on a valid node [serialize] returns, in this order, the 32 bytes of
    the sibling hash, one tag byte (0 for a left node, 1 for a right node),
    four bytes that read back as the unsigned parentIndex (left node) or
    leftIndex (right node), and then four more bytes that read back as the
    rightIndex when the node is a left node that has one, and nothing
    otherwise. *)
Theorem serialize_field_order (value : NodeValue) :
  isValid value = true ->
  exists (tag : byte) (first second : Buffer),
    NodeEncoding.serialize value
    = Ok (hashOfSibling value ++ [tag] ++ first ++ second)
    /\ length (hashOfSibling value) = 32%nat
    /\ Z_of_byte tag = match side value with Left => 0 | Right => 1 end
    /\ length first = 4%nat
    /\ Bufio.u32_at first 0 = otherIndex value
    /\ match value with
       | LeftNodeValue _ _ (Some r) =>
           length second = 4%nat /\ Bufio.u32_at second 0 = r
       | _ => second = []
       end.
Proof.
  intros Hv.
  exists (byte_of_Z (sideTag (side value))), (Bufio.u32_bytes (otherIndex value)),
    (match rightIndex value with Some r => Bufio.u32_bytes r | None => [] end).
  split; [apply serialize_layout; assumption |].
  split; [apply valid_hash_length; assumption |].
  split; [rewrite Z_of_byte_of_Z; destruct (side value); reflexivity |].
  split; [reflexivity |].
  split.
  - rewrite <- (app_nil_r (Bufio.u32_bytes _)).
    apply u32_at_u32_bytes, valid_otherIndex; assumption.
  - pose proof (valid_rightIndex value Hv) as Hr.
    destruct value as [h p [r|] | h l]; cbn [rightIndex] in *; try reflexivity.
    split; [reflexivity |].
    rewrite <- (app_nil_r (Bufio.u32_bytes _)).
    apply u32_at_u32_bytes, Hr. reflexivity.
Qed.

Lemma serialize_field_order_witness :
  isValid samplePaired = true
  /\ exists (tag : byte) (first second : Buffer),
       NodeEncoding.serialize samplePaired
       = Ok (hashOfSibling samplePaired ++ [tag] ++ first ++ second)
       /\ length (hashOfSibling samplePaired) = 32%nat
       /\ Z_of_byte tag = match side samplePaired with Left => 0 | Right => 1 end
       /\ length first = 4%nat
       /\ Bufio.u32_at first 0 = otherIndex samplePaired
       /\ match samplePaired with
          | LeftNodeValue _ _ (Some r) =>
              length second = 4%nat /\ Bufio.u32_at second 0 = r
          | _ => second = []
          end.
Proof.
  split; [reflexivity | apply (serialize_field_order samplePaired); reflexivity].
Defined.

Lemma littleEndianAt_u32_bytes (n : Z) (rest : Buffer) :
  0 <= n < 2 ^ 32 -> littleEndianAt (Bufio.u32_bytes n ++ rest) 0 n.
Proof.
  intros Hn. rewrite u32_bytes_digits by assumption.
  unfold littleEndianAt, Bufio.byteAt, digit. cbn [app nth Nat.add].
  rewrite !Z_of_byte_of_Z, !Z.mod_mod by lia.
  cbn [Z.of_nat Z.mul Pos.of_succ_nat Pos.succ Pos.mul].
  rewrite Z.pow_0_r, Z.div_1_r. repeat split; reflexivity.
Qed.

(** C9: on a valid node the index at byte offset 33 (parentIndex or
    leftIndex) and, when present, the rightIndex at byte offset 37 are
    written least significant byte first. *)
Theorem serialize_little_endian (value : NodeValue) :
  isValid value = true ->
  exists b,
    NodeEncoding.serialize value = Ok b
    /\ littleEndianAt b 33 (otherIndex value)
    /\ match rightIndex value with
       | Some r => littleEndianAt b 37 r
       | None => True
       end.
Proof.
  intros Hv. exists (layout value).
  split; [apply serialize_layout; assumption |].
  pose proof (valid_rightIndex value Hv) as Hr.
  pose proof (littleEndianAt_u32_bytes (otherIndex value)
                (match rightIndex value with
                 | Some r => Bufio.u32_bytes r
                 | None => []
                 end) (valid_otherIndex value Hv)) as Ho.
  unfold littleEndianAt in *.
  split.
  - rewrite <- (Nat.add_0_r 33) at 1.
    rewrite !(layout_at value Hv). exact Ho.
  - destruct (rightIndex value) as [r|] eqn:E; [| exact I].
    pose proof (littleEndianAt_u32_bytes r [] (Hr r eq_refl)) as Hl.
    unfold littleEndianAt in Hl. rewrite app_nil_r in Hl.
    change 37%nat with (33 + 4)%nat.
    rewrite <- (Nat.add_0_r (33 + 4)) at 1.
    rewrite <- !Nat.add_assoc, !(layout_at value Hv), E.
    change 4%nat with (length (Bufio.u32_bytes (otherIndex value))) at 1 2 3 4.
    rewrite !byteAt_app. exact Hl.
Qed.

Lemma serialize_little_endian_witness :
  isValid samplePaired = true
  /\ exists b,
       NodeEncoding.serialize samplePaired = Ok b
       /\ littleEndianAt b 33 (otherIndex samplePaired)
       /\ match rightIndex samplePaired with
          | Some r => littleEndianAt b 37 r
          | None => True
          end.
Proof.
  split; [reflexivity | apply (serialize_little_endian samplePaired); reflexivity].
Defined.

(** ** What [deserialize] reads *)

(** C6: on a buffer that holds the three leading fields, [deserialize]
    takes the sibling hash from bytes 0..31, the tag from byte 32 and the
    first index from bytes 33..36.  It reads a right index, from bytes
    37..40, exactly when the tag is the left one and bytes remain after the
    first index: a right tag never reads it, a left tag followed by nothing
    leaves it absent, a left tag followed by at least four bytes gives it,
    and a left tag followed by one to three bytes fails in that read.  No
    byte of the buffer says whether the right index is present: two buffers
    of equal length that carry the left tag agree on it. *)
Theorem deserialize_rightIndex_by_trailing_bytes (b : Buffer) :
  (37 <= length b)%nat ->
  let hash := firstn 32 b in
  let first := Bufio.u32_at b 33 in
  (Bufio.byteAt b 32 <> 0 ->
     NodeEncoding.deserialize b = Ok (RightNodeValue hash first)
     /\ consumed b = Some 37%nat)
  /\ (Bufio.byteAt b 32 = 0 -> length b = 37%nat ->
     NodeEncoding.deserialize b = Ok (LeftNodeValue hash first None)
     /\ consumed b = Some 37%nat)
  /\ (Bufio.byteAt b 32 = 0 -> (41 <= length b)%nat ->
     NodeEncoding.deserialize b
     = Ok (LeftNodeValue hash first (Some (Bufio.u32_at b 37)))
     /\ consumed b = Some 41%nat)
  /\ (Bufio.byteAt b 32 = 0 -> (37 < length b < 41)%nat ->
     NodeEncoding.deserialize b = Err (EncodingError 37 Bufio.OUT_OF_BOUNDS_READ))
  /\ (forall b' : Buffer,
     length b' = length b -> Bufio.byteAt b 32 = 0 -> Bufio.byteAt b' 32 = 0 ->
     consumed b' = consumed b).
Proof.
  intros Hlen hash first. subst hash first.
  assert (Hdec : forall c : Buffer, (37 <= length c)%nat ->
            NodeEncoding.deserializeFrom (Bufio.read c)
            = if Bufio.byteAt c 32 =? 0 then
                if (length c =? 37)%nat then
                  Ok (LeftNodeValue (firstn 32 c) (Bufio.u32_at c 33) None,
                      Bufio.mkReader c 37)
                else if (length c <? 41)%nat then
                  Err (EncodingError 37 Bufio.OUT_OF_BOUNDS_READ)
                else
                  Ok (LeftNodeValue (firstn 32 c) (Bufio.u32_at c 33)
                        (Some (Bufio.u32_at c 37)), Bufio.mkReader c 41)
              else
                Ok (RightNodeValue (firstn 32 c) (Bufio.u32_at c 33),
                    Bufio.mkReader c 37)).
  { intros c Hc. rewrite deserializeFrom_read. unfold decodeByLength. cbv zeta.
    destruct (Nat.ltb_spec (length c) 32); [lia |].
    destruct (Nat.ltb_spec (length c) 33); [lia |].
    destruct (Nat.ltb_spec (length c) 37); [lia |]. reflexivity. }
  unfold NodeEncoding.deserialize, consumed.
  split; [| split; [| split; [| split]]].
  - intros Htag. rewrite (Hdec b Hlen).
    destruct (Z.eqb_spec (Bufio.byteAt b 32) 0); [contradiction |].
    split; reflexivity.
  - intros Htag H37. rewrite (Hdec b Hlen), Htag, H37. split; reflexivity.
  - intros Htag H41. rewrite (Hdec b Hlen), Htag. cbn [Z.eqb].
    destruct (Nat.eqb_spec (length b) 37); [lia |].
    destruct (Nat.ltb_spec (length b) 41); [lia |]. split; reflexivity.
  - intros Htag Hbetween. rewrite (Hdec b Hlen), Htag. cbn [Z.eqb].
    destruct (Nat.eqb_spec (length b) 37); [lia |].
    destruct (Nat.ltb_spec (length b) 41); [| lia]. reflexivity.
  - intros b' Hb' Hb Hb0.
    rewrite (Hdec b Hlen), (Hdec b') by lia. rewrite Hb, Hb0, Hb'. cbn [Z.eqb].
    destruct (length b =? 37)%nat; [reflexivity |].
    destruct (length b <? 41)%nat; reflexivity.
Qed.

Lemma deserialize_rightIndex_by_trailing_bytes_witness :
  (37 <= length truncatedLeft)%nat
  /\ let b := truncatedLeft in
     let hash := firstn 32 b in
     let first := Bufio.u32_at b 33 in
     (Bufio.byteAt b 32 <> 0 ->
        NodeEncoding.deserialize b = Ok (RightNodeValue hash first)
        /\ consumed b = Some 37%nat)
     /\ (Bufio.byteAt b 32 = 0 -> length b = 37%nat ->
        NodeEncoding.deserialize b = Ok (LeftNodeValue hash first None)
        /\ consumed b = Some 37%nat)
     /\ (Bufio.byteAt b 32 = 0 -> (41 <= length b)%nat ->
        NodeEncoding.deserialize b
        = Ok (LeftNodeValue hash first (Some (Bufio.u32_at b 37)))
        /\ consumed b = Some 41%nat)
     /\ (Bufio.byteAt b 32 = 0 -> (37 < length b < 41)%nat ->
        NodeEncoding.deserialize b = Err (EncodingError 37 Bufio.OUT_OF_BOUNDS_READ))
     /\ (forall b' : Buffer,
        length b' = length b -> Bufio.byteAt b 32 = 0 -> Bufio.byteAt b' 32 = 0 ->
        consumed b' = consumed b).
Proof.
  split; [vm_compute; lia |].
  apply (deserialize_rightIndex_by_trailing_bytes truncatedLeft).
  vm_compute; lia.
Defined.

(** ** The side tag *)

(** C8: on a buffer long enough to hold the three leading fields, a tag byte
    of 0 decodes as a left node and every other tag byte, 1 or not, as a
    right node; no tag byte makes [deserialize] fail. *)
Theorem deserialize_nonzero_tag_is_right (b : Buffer) :
  (37 <= length b)%nat ->
  (Bufio.byteAt b 32 <> 0 ->
     NodeEncoding.deserialize b
     = Ok (RightNodeValue (firstn 32 b) (Bufio.u32_at b 33)))
  /\ (Bufio.byteAt b 32 = 0 ->
      (length b = 37%nat \/ 41 <= length b)%nat ->
      exists r : option Z,
        NodeEncoding.deserialize b
        = Ok (LeftNodeValue (firstn 32 b) (Bufio.u32_at b 33) r))
  /\ (Bufio.byteAt b 32 = 0 ->
      forall value : NodeValue,
        NodeEncoding.deserialize b = Ok value -> side value = Left).
Proof.
  intros Hlen. unfold NodeEncoding.deserialize.
  rewrite deserializeFrom_read. unfold decodeByLength. cbv zeta.
  destruct (Nat.ltb_spec (length b) 32); [lia |].
  destruct (Nat.ltb_spec (length b) 33); [lia |].
  destruct (Nat.ltb_spec (length b) 37); [lia |].
  destruct (Z.eqb_spec (Bufio.byteAt b 32) 0) as [E|E].
  - split; [intros; contradiction |].
    destruct (Nat.eqb_spec (length b) 37).
    + split; [intros _ _; eexists; reflexivity |].
      intros _ value Hv. cbn in Hv. injection Hv as <-. reflexivity.
    + destruct (Nat.ltb_spec (length b) 41).
      * split; [intros _ [?|?]; lia | intros _ value Hv; discriminate].
      * split; [intros _ _; eexists; reflexivity |].
        intros _ value Hv. cbn in Hv. injection Hv as <-. reflexivity.
  - split; [intros _; reflexivity |].
    split; intros; contradiction.
Qed.

(** The tag byte 2 decodes as a right node. *)
Lemma deserialize_nonzero_tag_is_right_witness :
  (37 <= length tagTwo)%nat
  /\ Bufio.byteAt tagTwo 32 = 2
  /\ NodeEncoding.deserialize tagTwo = Ok (RightNodeValue sampleHash 9).
Proof.
  assert (Hlen : (37 <= length tagTwo)%nat) by (vm_compute; lia).
  split; [exact Hlen |]. split; [reflexivity |].
  assert (Htag : Bufio.byteAt tagTwo 32 <> 0) by (vm_compute; discriminate).
  exact (proj1 (deserialize_nonzero_tag_is_right tagTwo Hlen) Htag).
Defined.

(** ** The benchmark command *)

Example run_600_blocks :
  snd (Sample.run 600 "1111") = Benchmark.Continue tt
  /\ length (Benchmark.calls (fst (Sample.run 600 "1111"))) = 505%nat.
Proof. vm_compute. split; reflexivity. Qed.

Example run_499_blocks :
  Sample.run 499 "1111"
  = (Benchmark.mkState
       [Benchmark.SdkInit "~/.ironfishbenchmark"; Benchmark.CreateNode;
        Benchmark.OpenDB; Benchmark.ChainOpen]
       [Benchmark.ActionStart "Opening node"; Benchmark.ActionStop "done.";
        Benchmark.ActionStart "Opening benchmark node";
        Benchmark.ActionStop "done.";
        Benchmark.Log "Need to sync more blocks for testing."]
       0,
     Benchmark.Throw (Benchmark.ExitError 0)).
Proof. vm_compute. reflexivity. Qed.

Section BenchmarkProperties.

Variables Header Block Hash Time : Type.
Variable sequence : Header -> Z.
Variable noteCommitmentSize : Header -> Z.
Variable toHex : Hash -> string.
Variable showNumber : Z -> string.
Variable showTime : Time -> string.
Variable timeZero : Time.
Variable timeAdd : Time -> Time -> Time.
Variable elapsed : nat -> Time.
Variable node : Benchmark.Chain Header Block Hash.
Variable benchmarkNode : Benchmark.BenchmarkNode Block Hash.

Local Abbreviation start :=
  (Benchmark.start sequence noteCommitmentSize toHex showNumber showTime
     timeZero timeAdd elapsed node benchmarkNode).

(** The state the opening phase leaves. *)
Local Abbreviation opened :=
  (Benchmark.mkState (Benchmark.openingCalls benchmarkNode)
     (Benchmark.openingOutput benchmarkNode) 0).

(** The loop adds the blocks in order, one measurement each. *)
Lemma replay_blocks (headers : list Header) :
  forall (blocks : list Block) (totalTime : Time) (st : Benchmark.State Block),
    Benchmark.getBlocks node headers = Some blocks ->
    Benchmark.replay timeAdd elapsed node headers totalTime st
    = (Benchmark.mkState
         (Benchmark.calls st ++ map Benchmark.AddBlock blocks)
         (Benchmark.output st)
         (Benchmark.measured st + length blocks),
       Benchmark.Continue
         (fold_left timeAdd
            (map elapsed (List.seq (Benchmark.measured st) (length blocks)))
            totalTime)).
Proof.
  induction headers as [|header rest IH]; intros blocks totalTime st Hb.
  - injection Hb as <-. destruct st as [c o m]. cbn.
    rewrite app_nil_r, Nat.add_0_r. reflexivity.
  - cbn in Hb.
    destruct (Benchmark.getBlock node header) as [block|] eqn:Hblock; [| discriminate].
    destruct (Benchmark.getBlocks node rest) as [blocks'|] eqn:Hrest; [| discriminate].
    injection Hb as <-.
    cbn [Benchmark.replay]. unfold Benchmark.seq at 1. rewrite Hblock.
    cbn [Benchmark.assertIsNotNull Benchmark.ret].
    unfold Benchmark.seq at 1. cbn [Benchmark.call].
    unfold Benchmark.seq at 1. cbn [Benchmark.benchEnd Benchmark.measured].
    rewrite (IH blocks' _ _ eq_refl).
    cbn [Benchmark.calls Benchmark.output Benchmark.measured map length List.seq fold_left].
    rewrite <- app_assoc, Nat.add_succ_r. reflexivity.
Qed.

(** A missing block stops the loop with the assertion of [start]. *)
Lemma replay_missing_block (header : Header) (rest : list Header)
      (totalTime : Time) (st : Benchmark.State Block) :
  Benchmark.getBlock node header = None ->
  Benchmark.replay timeAdd elapsed node (header :: rest) totalTime st
  = (st, Benchmark.Throw Benchmark.AssertionError).
Proof.
  intros Hb. cbn [Benchmark.replay]. unfold Benchmark.seq at 1. rewrite Hb.
  reflexivity.
Qed.

(** The opening phase, whatever opening the benchmark node does. *)
Lemma start_opening (rest : Benchmark.Cmd Block unit) :
  Benchmark.seq
    (Benchmark.emit (Benchmark.ActionStart "Opening node"))
    (fun _ => Benchmark.seq
      (Benchmark.emit (Benchmark.ActionStop "done."))
      (fun _ => Benchmark.seq
        (Benchmark.emit (Benchmark.ActionStart "Opening benchmark node"))
        (fun _ => Benchmark.seq
          (Benchmark.call (Benchmark.SdkInit "~/.ironfishbenchmark"))
          (fun _ => Benchmark.seq
            (Benchmark.call Benchmark.CreateNode)
            (fun _ => Benchmark.seq
              (Benchmark.tryCatch
                 (Benchmark.seq
                    (Benchmark.callOrThrow Benchmark.OpenDB
                       (Benchmark.openDBError benchmarkNode))
                    (fun _ => Benchmark.callOrThrow Benchmark.ChainOpen
                                (Benchmark.chainOpenError benchmarkNode)))
                 (fun e => Benchmark.log (Benchmark.stack e)))
              (fun _ => Benchmark.seq
                (Benchmark.emit (Benchmark.ActionStop "done."))
                (fun _ => rest)))))))
    (Benchmark.initial Block)
  = rest opened.
Proof.
  unfold Benchmark.openingCalls, Benchmark.openingOutput.
  destruct (Benchmark.openDBError benchmarkNode) as [e1|];
    [| destruct (Benchmark.chainOpenError benchmarkNode) as [e2|]];
    reflexivity.
Qed.

(** C10: when the reference chain is empty, or its head has a sequence
    below 500, [start] logs one message and exits with code 0; the only calls
    it has made on the benchmark side are those that create and open the
    node, none of them [addBlock] or [rehashTree]. *)
Theorem start_exits_before_replay :
  Benchmark.isEmpty node = true \/ sequence (Benchmark.head node) < 500 ->
  exists msg : string,
    start (Benchmark.initial Block)
    = (Benchmark.mkState (Benchmark.openingCalls benchmarkNode)
         (Benchmark.openingOutput benchmarkNode ++ [Benchmark.Log msg]) 0,
       Benchmark.Throw (Benchmark.ExitError 0))
    /\ existsb Benchmark.isReplayCall (Benchmark.openingCalls benchmarkNode)
       = false.
Proof.
  intros Hcase. unfold Benchmark.start. rewrite start_opening.
  assert (Hcalls : existsb Benchmark.isReplayCall
                     (Benchmark.openingCalls benchmarkNode) = false).
  { unfold Benchmark.openingCalls.
    destruct (Benchmark.openDBError benchmarkNode); reflexivity. }
  destruct (Benchmark.isEmpty node) eqn:Hempty.
  - eexists. split; [reflexivity | exact Hcalls].
  - destruct Hcase as [Hcase | Hcase]; [discriminate |].
    apply Z.ltb_lt in Hcase.
    eexists. split; [| exact Hcalls].
    unfold Benchmark.seq at 1. cbn [Benchmark.ret].
    unfold Benchmark.seq at 1. rewrite Hcase. reflexivity.
Qed.

Lemma start_after_checks (rest : Benchmark.Cmd Block unit) :
  Benchmark.isEmpty node = false ->
  500 <= sequence (Benchmark.head node) ->
  Benchmark.seq
    (if Benchmark.isEmpty node
     then Benchmark.seq
            (Benchmark.log
               ("Chain is too corrupt. Delete your DB at "
                ++ Benchmark.chainDatabasePath node))
            (fun _ => Benchmark.exit 0)
     else Benchmark.ret tt)
    (fun _ => Benchmark.seq
      (if sequence (Benchmark.head node) <? 500
       then Benchmark.seq
              (Benchmark.log "Need to sync more blocks for testing.")
              (fun _ => Benchmark.exit 0)
       else Benchmark.ret tt)
      (fun _ => rest))
    opened
  = rest opened.
Proof.
  intros Hempty Hhead. rewrite Hempty.
  destruct (Z.ltb_spec (sequence (Benchmark.head node)) 500); [lia |].
  reflexivity.
Qed.

(** C7, amended: when the reference chain is not empty, its head is at
    sequence 500 or beyond, the header at sequence 500 exists and every
    header from genesis to it has its block, [start] creates and opens a
    second node on [~/.ironfishbenchmark], adds to it the blocks of those
    headers in order, rehashes its note tree, logs the root hash of that
    tree and, on the next line, the past root of the reference tree at the
    note-commitment size of the header at sequence 500, then the size of
    the benchmark tree and the two times, and returns.  The values are
    logged, never tested: the run is the same whatever they are. *)
Theorem start_replays_and_logs (finalHeader : Header) (blocks : list Block) :
  Benchmark.isEmpty node = false ->
  500 <= sequence (Benchmark.head node) ->
  Benchmark.getHeaderAtSequence node 500 = Some finalHeader ->
  Benchmark.getBlocks node
    (Benchmark.iterateTo node (Benchmark.genesis node) finalHeader)
  = Some blocks ->
  let replayed :=
    Benchmark.openingCalls benchmarkNode
    ++ map Benchmark.AddBlock blocks ++ [Benchmark.RehashTree] in
  let timeToRehashTree := elapsed (length blocks) in
  let totalTime :=
    timeAdd (Benchmark.replayTime timeZero timeAdd elapsed (length blocks))
      timeToRehashTree in
  start (Benchmark.initial Block)
  = (Benchmark.mkState replayed
       (Benchmark.openingOutput benchmarkNode
        ++ [Benchmark.Log
              ("bnch hash: " ++ toHex (Benchmark.rootHash benchmarkNode replayed));
            Benchmark.Log
              ("real hash: "
               ++ toHex (Benchmark.pastRoot node (noteCommitmentSize finalHeader)));
            Benchmark.Log
              ("Rehashed tree of "
               ++ showNumber (Benchmark.size benchmarkNode replayed) ++ " notes.");
            Benchmark.Log
              ("Time to rehash tree: " ++ showTime timeToRehashTree ++ " ms.");
            Benchmark.Log
              ("Benchmark complete in " ++ showTime totalTime ++ " ms.")])
       (S (length blocks)),
     Benchmark.Continue tt).
Proof.
  intros Hempty Hhead Hfinal Hblocks replayed timeToRehashTree totalTime.
  unfold Benchmark.start. rewrite start_opening.
  rewrite start_after_checks by assumption.
  unfold Benchmark.seq at 1. rewrite Hfinal.
  cbn [Benchmark.assertIsNotNull Benchmark.ret].
  unfold Benchmark.seq at 1.
  rewrite (replay_blocks _ blocks timeZero _ Hblocks).
  cbn [Benchmark.calls Benchmark.output Benchmark.measured Nat.add].
  subst replayed timeToRehashTree totalTime. unfold Benchmark.replayTime.
  cbv [Benchmark.seq Benchmark.call Benchmark.benchEnd Benchmark.notesRootHash
       Benchmark.notesSize Benchmark.log Benchmark.emit Benchmark.calls
       Benchmark.output Benchmark.measured].
  rewrite <- !app_assoc. reflexivity.
Qed.

End BenchmarkProperties.

Lemma start_exits_before_replay_witness :
  (Benchmark.isEmpty (Sample.chain 499) = true
   \/ Sample.sequence (Benchmark.head (Sample.chain 499)) < 500)
  /\ exists msg : string,
       Sample.run 499 "1111"
       = (Benchmark.mkState (Benchmark.openingCalls (Sample.benchmarkNode "1111"))
            (Benchmark.openingOutput (Sample.benchmarkNode "1111")
             ++ [Benchmark.Log msg]) 0,
          Benchmark.Throw (Benchmark.ExitError 0))
       /\ existsb Benchmark.isReplayCall
            (Benchmark.openingCalls (Sample.benchmarkNode "1111"))
          = false.
Proof.
  assert (H : Benchmark.isEmpty (Sample.chain 499) = true
              \/ Sample.sequence (Benchmark.head (Sample.chain 499)) < 500)
    by (right; reflexivity).
  split; [exact H |].
  exact (start_exits_before_replay Z Z string Z Sample.sequence
           Sample.noteCommitmentSize (fun h : string => h) Sample.showZ
           Sample.showZ 0 Z.add (fun _ => 2) (Sample.chain 499)
           (Sample.benchmarkNode "1111") H).
Defined.

Lemma start_replays_and_logs_witness :
  Benchmark.isEmpty (Sample.chain 600) = false
  /\ 500 <= Sample.sequence (Benchmark.head (Sample.chain 600))
  /\ Benchmark.getHeaderAtSequence (Sample.chain 600) 500 = Some 500
  /\ Benchmark.getBlocks (Sample.chain 600)
       (Benchmark.iterateTo (Sample.chain 600)
          (Benchmark.genesis (Sample.chain 600)) 500)
     = Some (Sample.headers 1 500)
  /\ Sample.run 600 "1111"
     = (Benchmark.mkState
          ([Benchmark.SdkInit "~/.ironfishbenchmark"; Benchmark.CreateNode;
            Benchmark.OpenDB; Benchmark.ChainOpen]
           ++ map Benchmark.AddBlock (Sample.headers 1 500)
           ++ [Benchmark.RehashTree])
          [Benchmark.ActionStart "Opening node"; Benchmark.ActionStop "done.";
           Benchmark.ActionStart "Opening benchmark node";
           Benchmark.ActionStop "done.";
           Benchmark.Log "bnch hash: 1111";
           Benchmark.Log "real hash: 2222";
           Benchmark.Log "Rehashed tree of 500 notes.";
           Benchmark.Log "Time to rehash tree: 2 ms.";
           Benchmark.Log "Benchmark complete in 1002 ms."]
          501,
        Benchmark.Continue tt).
Proof.
  assert (H1 : Benchmark.isEmpty (Sample.chain 600) = false) by reflexivity.
  assert (H2 : 500 <= Sample.sequence (Benchmark.head (Sample.chain 600)))
    by (vm_compute; discriminate).
  assert (H3 : Benchmark.getHeaderAtSequence (Sample.chain 600) 500 = Some 500)
    by reflexivity.
  assert (H4 : Benchmark.getBlocks (Sample.chain 600)
                 (Benchmark.iterateTo (Sample.chain 600)
                    (Benchmark.genesis (Sample.chain 600)) 500)
               = Some (Sample.headers 1 500))
    by (vm_compute; reflexivity).
  do 4 (split; [assumption |]).
  pose proof (start_replays_and_logs Z Z string Z Sample.sequence
                Sample.noteCommitmentSize (fun h : string => h) Sample.showZ
                Sample.showZ 0 Z.add (fun _ => 2) (Sample.chain 600)
                (Sample.benchmarkNode "1111") 500 (Sample.headers 1 500)
                H1 H2 H3 H4) as Hrun.
  vm_compute in Hrun. vm_compute. exact Hrun.
Defined.

(** C7, as stated, fails: [start] makes no comparison.  On a chain of 600
    blocks whose reference tree has the past root [2222], a benchmark tree
    with root [1111] and a benchmark tree with root [2222] give the same
    calls and the same return; the output differs in the logged root and
    nowhere else, and the size of the benchmark tree (500) is logged
    although the note-commitment size the past root was taken at is 1500. *)
Lemma start_makes_no_comparison_counterexample :
  Benchmark.pastRoot (Sample.chain 600) (Sample.noteCommitmentSize 500) = "2222"%string
  /\ Sample.noteCommitmentSize 500 = 1500
  /\ snd (Sample.run 600 "1111") = snd (Sample.run 600 "2222")
  /\ snd (Sample.run 600 "1111") = Benchmark.Continue tt
  /\ Benchmark.calls (fst (Sample.run 600 "1111"))
     = Benchmark.calls (fst (Sample.run 600 "2222"))
  /\ Benchmark.output (fst (Sample.run 600 "1111"))
     = [Benchmark.ActionStart "Opening node"; Benchmark.ActionStop "done.";
        Benchmark.ActionStart "Opening benchmark node";
        Benchmark.ActionStop "done.";
        Benchmark.Log "bnch hash: 1111";
        Benchmark.Log "real hash: 2222";
        Benchmark.Log "Rehashed tree of 500 notes.";
        Benchmark.Log "Time to rehash tree: 2 ms.";
        Benchmark.Log "Benchmark complete in 1002 ms."]
  /\ Benchmark.output (fst (Sample.run 600 "2222"))
     = [Benchmark.ActionStart "Opening node"; Benchmark.ActionStop "done.";
        Benchmark.ActionStart "Opening benchmark node";
        Benchmark.ActionStop "done.";
        Benchmark.Log "bnch hash: 2222";
        Benchmark.Log "real hash: 2222";
        Benchmark.Log "Rehashed tree of 500 notes.";
        Benchmark.Log "Time to rehash tree: 2 ms.";
        Benchmark.Log "Benchmark complete in 1002 ms."].
Proof.
  do 6 (split; [vm_compute; reflexivity |]). vm_compute. reflexivity.
Qed.

(** * Further properties of the node encoding *)

Lemma byteAt_range (b : Buffer) (off : nat) : 0 <= Bufio.byteAt b off < 256.
Proof. apply Z_of_byte_range. Qed.

Lemma u32_at_range (b : Buffer) (off : nat) : 0 <= Bufio.u32_at b off < 2 ^ 32.
Proof.
  unfold Bufio.u32_at.
  pose proof (byteAt_range b off). pose proof (byteAt_range b (off + 1)).
  pose proof (byteAt_range b (off + 2)). pose proof (byteAt_range b (off + 3)).
  change (2 ^ 32) with 4294967296. lia.
Qed.

Lemma u32_bytes_wrap (n : Z) : Bufio.u32_bytes (n mod 2 ^ 32) = Bufio.u32_bytes n.
Proof. unfold Bufio.u32_bytes. rewrite Z.mod_mod by lia. reflexivity. Qed.

Lemma u32_at_u32_bytes_wrap (n : Z) (rest : Buffer) :
  Bufio.u32_at (Bufio.u32_bytes n ++ rest) 0 = n mod 2 ^ 32.
Proof.
  rewrite <- u32_bytes_wrap. apply u32_at_u32_bytes.
  apply Z.mod_pos_bound. lia.
Qed.

(** Four bytes written from the number they read as are the same bytes. *)
Lemma u32_bytes_u32_at_head (x0 x1 x2 x3 : byte) (rest : Buffer) :
  Bufio.u32_bytes (Bufio.u32_at (x0 :: x1 :: x2 :: x3 :: rest) 0) = [x0; x1; x2; x3].
Proof.
  rewrite u32_bytes_digits by apply u32_at_range.
  unfold Bufio.u32_at, Bufio.byteAt. cbn [nth Nat.add].
  pose proof (Z_of_byte_range x0). pose proof (Z_of_byte_range x1).
  pose proof (Z_of_byte_range x2). pose proof (Z_of_byte_range x3).
  change (2 ^ 8) with 256. change (2 ^ 16) with 65536.
  change (2 ^ 24) with 16777216.
  set (n := Z_of_byte x0 + Z_of_byte x1 * 256 + Z_of_byte x2 * 65536
            + Z_of_byte x3 * 16777216).
  assert (E0 : n mod 256 = Z_of_byte x0)
    by (subst n; Z.div_mod_to_equations; lia).
  assert (E1 : n / 256 mod 256 = Z_of_byte x1)
    by (subst n; Z.div_mod_to_equations; lia).
  assert (E2 : n / 65536 mod 256 = Z_of_byte x2)
    by (subst n; Z.div_mod_to_equations; lia).
  assert (E3 : n / 16777216 mod 256 = Z_of_byte x3)
    by (subst n; Z.div_mod_to_equations; lia).
  rewrite E0, E1, E2, E3, !byte_of_Z_of_byte. reflexivity.
Qed.

Lemma u32_bytes_u32_at (b : Buffer) (off : nat) :
  (off + 4 <= length b)%nat ->
  Bufio.u32_bytes (Bufio.u32_at b off) = firstn 4 (skipn off b).
Proof.
  intros Hlen.
  assert (Haux : forall a l : Buffer, (4 <= length l)%nat ->
            Bufio.u32_bytes (Bufio.u32_at (a ++ l) (length a + 0)) = firstn 4 l).
  { intros a l Hl. rewrite u32_at_app.
    destruct l as [|x0 [|x1 [|x2 [|x3 rest]]]]; cbn in Hl; try lia.
    apply u32_bytes_u32_at_head. }
  specialize (Haux (firstn off b) (skipn off b)).
  rewrite firstn_skipn, length_firstn, Nat.min_l, Nat.add_0_r in Haux by lia.
  apply Haux. rewrite length_skipn. lia.
Qed.

Lemma deserialize_decode (b : Buffer) :
  NodeEncoding.deserialize b
  = match decodeByLength b with
    | Ok (value, _) => Ok value
    | Err e => Err e
    end.
Proof.
  unfold NodeEncoding.deserialize. rewrite deserializeFrom_read.
  destruct (decodeByLength b) as [[value reader]|e]; reflexivity.
Qed.

Lemma isU32_u32_at (b : Buffer) (off : nat) : isU32 (Bufio.u32_at b off) = true.
Proof. pose proof (u32_at_range b off). unfold isU32. lia. Qed.

Lemma decoded_valid (b : Buffer) (value : NodeValue) :
  NodeEncoding.deserialize b = Ok value -> isValid value = true.
Proof.
  rewrite deserialize_decode. unfold decodeByLength. cbv zeta.
  destruct (Nat.ltb_spec (length b) 32); [discriminate |].
  destruct (Nat.ltb_spec (length b) 33); [discriminate |].
  destruct (Nat.ltb_spec (length b) 37); [discriminate |].
  assert (Hh : (length (firstn 32 b) =? 32)%nat = true)
    by (apply Nat.eqb_eq; rewrite length_firstn; lia).
  pose proof (isU32_u32_at b 33) as H33. pose proof (isU32_u32_at b 37) as H37.
  set (h := firstn 32 b) in *. set (i := Bufio.u32_at b 33) in *.
  set (j := Bufio.u32_at b 37) in *.
  destruct (Bufio.byteAt b 32 =? 0).
  - destruct (length b =? 37)%nat.
    + intros [= <-]. cbn [isValid]. rewrite Hh, H33. reflexivity.
    + destruct (length b <? 41)%nat; [discriminate |].
      intros [= <-]. cbn [isValid]. rewrite Hh, H33, H37. reflexivity.
  - intros [= <-]. cbn [isValid]. rewrite Hh, H33. reflexivity.
Qed.

(** X1: whatever buffer it is given, [deserialize] returns only valid
    nodes: a 32-byte sibling hash and indices that fit 32 unsigned bits. *)
Theorem deserialize_returns_valid (b : Buffer) (value : NodeValue) :
  NodeEncoding.deserialize b = Ok value -> isValid value = true.
Proof. apply decoded_valid. Qed.

Lemma deserialize_returns_valid_witness :
  NodeEncoding.deserialize surplusRight = Ok (RightNodeValue sampleHash 4)
  /\ isValid (RightNodeValue sampleHash 4) = true.
Proof.
  assert (H : NodeEncoding.deserialize surplusRight = Ok (RightNodeValue sampleHash 4))
    by (vm_compute; reflexivity).
  split; [exact H | exact (deserialize_returns_valid surplusRight _ H)].
Defined.

(** ** What [serialize] accepts *)

Section Serializable.
Import Bufio.

Lemma writeU32_unsafe (a r : Buffer) (x0 x1 x2 x3 : byte) (v : Z) :
  isSafeInteger v = false ->
  writeU32 v (filling a (x0 :: x1 :: x2 :: x3 :: r))
  = Err (EnforceError "num" "integer").
Proof.
  intros Hv. unfold writeU32, w_check, filling. cbn [w_data w_offset].
  rewrite length_app. cbn [length].
  destruct (Nat.ltb_spec (length a + S (S (S (S (length r))))) (length a + 4)); [lia |].
  cbn [bind]. rewrite Hv. reflexivity.
Qed.

(** On a serializable node [serialize] returns the layout. *)
Lemma serialize_layout_serializable (value : NodeValue) :
  isSerializable value = true -> NodeEncoding.serialize value = Ok (layout value).
Proof.
  intros Hv. unfold NodeEncoding.serialize, layout, writeHash.
  unfold isSerializable in Hv.
  destruct value as [h p [r|] | h l];
    cbn [hashOfSibling side sideTag otherIndex rightIndex NodeEncoding.getSize] in *;
    repeat (apply andb_prop in Hv; destruct Hv as [Hv ?]);
    apply Nat.eqb_eq in Hv;
    rewrite Hv; cbn [Nat.eqb enforce bind];
    change (write ?n) with (filling [] (repeat x00 n));
    rewrite writeBytes_filling by (rewrite Hv; cbn; lia);
    rewrite Hv; cbn [bind Nat.add repeat skipn app];
    rewrite writeU8_filling by reflexivity; cbn [bind];
    rewrite writeU32_filling by assumption; cbn [bind].
  - rewrite writeU32_filling by assumption. cbn [bind].
    rewrite render_filling, <- !app_assoc. reflexivity.
  - rewrite render_filling, <- !app_assoc, app_nil_r. reflexivity.
  - rewrite render_filling, <- !app_assoc, app_nil_r. reflexivity.
Qed.

Lemma serialize_not_serializable (value : NodeValue) :
  isSerializable value = false -> isOk (NodeEncoding.serialize value) = false.
Proof.
  intros Hv. unfold NodeEncoding.serialize, writeHash.
  unfold isSerializable in Hv.
  destruct (Nat.eqb_spec (length (hashOfSibling value)) 32) as [Hh|Hh].
  2:{ cbn [enforce bind]. reflexivity. }
  cbn [andb] in Hv. cbn [enforce bind].
  destruct value as [h p r | h l];
    cbn [hashOfSibling otherIndex rightIndex NodeEncoding.getSize] in *.
  - destruct r as [r|];
      change (write ?n) with (filling [] (repeat x00 n));
      rewrite writeBytes_filling by (rewrite Hh; cbn; lia);
      rewrite Hh; cbn [bind Nat.add repeat skipn app];
      rewrite writeU8_filling by reflexivity; cbn [bind];
      destruct (isSafeInteger p) eqn:Hp.
    + rewrite writeU32_filling by assumption. cbn [bind].
      cbn [andb] in Hv. rewrite writeU32_unsafe by assumption. reflexivity.
    + rewrite writeU32_unsafe by assumption. reflexivity.
    + discriminate.
    + rewrite writeU32_unsafe by assumption. reflexivity.
  - change (write ?n) with (filling [] (repeat x00 n)).
    rewrite writeBytes_filling by (rewrite Hh; cbn; lia).
    rewrite Hh. cbn [bind Nat.add repeat skipn app].
    rewrite writeU8_filling by reflexivity. cbn [bind].
    rewrite andb_true_r in Hv.
    rewrite writeU32_unsafe by assumption. reflexivity.
Qed.

End Serializable.

Lemma layout_length_serializable (value : NodeValue) :
  isSerializable value = true -> length (layout value) = NodeEncoding.getSize value.
Proof.
  intros Hv. unfold isSerializable in Hv.
  apply andb_prop in Hv. destruct Hv as [Hv _].
  apply andb_prop in Hv. destruct Hv as [Hv _]. apply Nat.eqb_eq in Hv.
  unfold layout. rewrite !length_app, Hv.
  destruct value as [h p [r|] | h l]; reflexivity.
Qed.

(** X2: [serialize] returns exactly when the sibling hash has 32 bytes and
    every index is a safe integer; it throws on any other node. *)
Theorem serialize_ok_iff_serializable (value : NodeValue) :
  isOk (NodeEncoding.serialize value) = isSerializable value.
Proof.
  destruct (isSerializable value) eqn:Hv.
  - rewrite serialize_layout_serializable by assumption. reflexivity.
  - apply serialize_not_serializable. assumption.
Qed.

(** A sibling hash that does not have 32 bytes makes [serialize] throw
    on the hash, before anything is rendered. *)
Theorem serialize_rejects_hash_length (value : NodeValue) :
  length (hashOfSibling value) <> 32%nat ->
  NodeEncoding.serialize value = Err (EnforceError "value" "32-byte hash").
Proof.
  intros Hh. unfold NodeEncoding.serialize, Bufio.writeHash.
  destruct (Nat.eqb_spec (length (hashOfSibling value)) 32); [contradiction |].
  reflexivity.
Qed.

Lemma serialize_rejects_hash_length_witness :
  length (hashOfSibling (LeftNodeValue (repeat x01 31) 5 None)) <> 32%nat
  /\ NodeEncoding.serialize (LeftNodeValue (repeat x01 31) 5 None)
     = Err (EnforceError "value" "32-byte hash").
Proof.
  assert (H : length (hashOfSibling (LeftNodeValue (repeat x01 31) 5 None)) <> 32%nat)
    by (vm_compute; discriminate).
  split; [exact H | exact (serialize_rejects_hash_length _ H)].
Defined.

(** X3: whenever [serialize] returns, valid node or not, the buffer has
    exactly [getSize] bytes. *)
Theorem serialize_length_is_getSize (value : NodeValue) (b : Buffer) :
  NodeEncoding.serialize value = Ok b -> length b = NodeEncoding.getSize value.
Proof.
  intros Hs. destruct (isSerializable value) eqn:Hv.
  - rewrite serialize_layout_serializable in Hs by assumption.
    injection Hs as <-. apply layout_length_serializable. assumption.
  - apply serialize_not_serializable in Hv. rewrite Hs in Hv. discriminate.
Qed.

Lemma serialize_length_is_getSize_witness :
  NodeEncoding.serialize (RightNodeValue sampleHash (-1))
  = Ok (sampleHash ++ [x01; xff; xff; xff; xff])
  /\ length (sampleHash ++ [x01; xff; xff; xff; xff])
     = NodeEncoding.getSize (RightNodeValue sampleHash (-1)).
Proof.
  assert (H : NodeEncoding.serialize (RightNodeValue sampleHash (-1))
              = Ok (sampleHash ++ [x01; xff; xff; xff; xff]))
    by (vm_compute; reflexivity).
  split; [exact H | exact (serialize_length_is_getSize _ _ H)].
Defined.

(** ** Indices beyond 32 bits *)

Lemma layout_wrapIndices (value : NodeValue) :
  layout (wrapIndices value) = layout value.
Proof.
  unfold layout.
  destruct value as [h p [r|] | h l];
    cbn [wrapIndices option_map hashOfSibling side otherIndex rightIndex];
    rewrite ?u32_bytes_wrap; reflexivity.
Qed.

Lemma wrapIndices_valid (value : NodeValue) :
  length (hashOfSibling value) = 32%nat -> isValid (wrapIndices value) = true.
Proof.
  intros Hh. apply Nat.eqb_eq in Hh.
  assert (Hw : forall n, isU32 (n mod 2 ^ 32) = true).
  { intros n. pose proof (Z.mod_pos_bound n (2 ^ 32) ltac:(lia)).
    unfold isU32. lia. }
  destruct value as [h p [r|] | h l];
    cbn [wrapIndices option_map isValid hashOfSibling] in *;
    rewrite Hh, ?Hw; reflexivity.
Qed.

(** X4: an index that is a safe integer but does not fit 32 unsigned bits
    is not rejected: it is written modulo 2^32, so serializing and then
    deserializing returns the node with each index reduced modulo 2^32. *)
Theorem deserialize_serialize_wraps (value : NodeValue) :
  isSerializable value = true ->
  (b <- NodeEncoding.serialize value ;; NodeEncoding.deserialize b)
  = Ok (wrapIndices value).
Proof.
  intros Hv. rewrite serialize_layout_serializable by assumption. cbn [bind].
  assert (Hh : length (hashOfSibling value) = 32%nat).
  { unfold isSerializable in Hv.
    apply andb_prop in Hv. destruct Hv as [Hv _].
    apply andb_prop in Hv. destruct Hv as [Hv _].
    apply Nat.eqb_eq. assumption. }
  rewrite deserialize_decode, <- layout_wrapIndices.
  rewrite decode_layout by (apply wrapIndices_valid; assumption).
  reflexivity.
Qed.

Lemma deserialize_serialize_wraps_witness :
  isSerializable (LeftNodeValue sampleHash 4294967301 (Some (-1))) = true
  /\ (b <- NodeEncoding.serialize (LeftNodeValue sampleHash 4294967301 (Some (-1))) ;;
      NodeEncoding.deserialize b)
     = Ok (LeftNodeValue sampleHash 5 (Some 4294967295)).
Proof.
  split; [reflexivity |].
  exact (deserialize_serialize_wraps
           (LeftNodeValue sampleHash 4294967301 (Some (-1))) eq_refl).
Defined.

(** ** Distinct nodes, distinct bytes *)

(** X5: two valid nodes that serialize to the same bytes are the same
    node. *)
Theorem serialize_injective (v1 v2 : NodeValue) :
  isValid v1 = true -> isValid v2 = true ->
  NodeEncoding.serialize v1 = NodeEncoding.serialize v2 -> v1 = v2.
Proof.
  intros H1 H2 Hs.
  rewrite !serialize_layout in Hs by assumption. injection Hs as Hl.
  pose proof (decode_layout v1 H1) as D1.
  pose proof (decode_layout v2 H2) as D2.
  rewrite Hl in D1. rewrite D1 in D2. injection D2 as E. exact E.
Qed.

Lemma serialize_injective_witness :
  isValid sampleOpen = true /\ isValid (LeftNodeValue sampleHash 5 None) = true
  /\ NodeEncoding.serialize sampleOpen
     = NodeEncoding.serialize (LeftNodeValue sampleHash 5 None)
  /\ sampleOpen = LeftNodeValue sampleHash 5 None.
Proof.
  split; [reflexivity |]. split; [reflexivity |]. split; [reflexivity |].
  exact (serialize_injective sampleOpen (LeftNodeValue sampleHash 5 None)
           eq_refl eq_refl eq_refl).
Defined.

(** ** Decoding and encoding again *)

Lemma firstn_app_l {A : Type} (n : nat) (l e : list A) :
  (n <= length l)%nat -> firstn n (l ++ e) = firstn n l.
Proof.
  intros H. rewrite firstn_app.
  replace (n - length l)%nat with 0%nat by lia.
  rewrite firstn_O, app_nil_r. reflexivity.
Qed.

Lemma byteAt_app_l (l e : Buffer) (k : nat) :
  (k < length l)%nat -> Bufio.byteAt (l ++ e) k = Bufio.byteAt l k.
Proof. intros H. unfold Bufio.byteAt. rewrite app_nth1 by lia. reflexivity. Qed.

Lemma u32_at_app_l (l e : Buffer) (k : nat) :
  (k + 4 <= length l)%nat -> Bufio.u32_at (l ++ e) k = Bufio.u32_at l k.
Proof.
  intros H. unfold Bufio.u32_at. rewrite !byteAt_app_l by lia. reflexivity.
Qed.

(** The layout of a decoded node is the canonical form of the buffer. *)
Lemma layout_decoded (b : Buffer) (value : NodeValue) :
  NodeEncoding.deserialize b = Ok value -> layout value = canonical b.
Proof.
  rewrite deserialize_decode. unfold decodeByLength, canonical. cbv zeta.
  destruct (Nat.ltb_spec (length b) 32); [discriminate |].
  destruct (Nat.ltb_spec (length b) 33); [discriminate |].
  destruct (Nat.ltb_spec (length b) 37); [discriminate |].
  pose proof (u32_bytes_u32_at b 33 ltac:(lia)) as H33.
  set (h := firstn 32 b) in *. set (i := Bufio.u32_at b 33) in *.
  destruct (Bufio.byteAt b 32 =? 0).
  - destruct (Nat.eqb_spec (length b) 37) as [E|E].
    + intros [= <-]. unfold layout.
      cbn [hashOfSibling side sideTag otherIndex rightIndex].
      rewrite H33, E. reflexivity.
    + destruct (Nat.ltb_spec (length b) 41); [discriminate |].
      pose proof (u32_bytes_u32_at b 37 ltac:(lia)) as H37.
      set (j := Bufio.u32_at b 37) in *.
      intros [= <-]. unfold layout.
      cbn [hashOfSibling side sideTag otherIndex rightIndex].
      rewrite H33, H37.
      destruct (Nat.ltb_spec 37 (length b)); [| lia]. reflexivity.
  - intros [= <-]. unfold layout.
    cbn [hashOfSibling side sideTag otherIndex rightIndex].
    rewrite H33. cbn [andb]. reflexivity.
Qed.

(** X6: when [deserialize] returns a node from a buffer, serializing that
    node returns the canonical form of the buffer: the bytes that were read,
    with the tag byte set to 0 or 1 and the bytes after the last field
    dropped. *)
Theorem serialize_deserialize_canonical (b : Buffer) (value : NodeValue) :
  NodeEncoding.deserialize b = Ok value ->
  NodeEncoding.serialize value = Ok (canonical b).
Proof.
  intros Hd. rewrite serialize_layout by (apply (decoded_valid b); assumption).
  rewrite (layout_decoded b) by assumption. reflexivity.
Qed.

Lemma serialize_deserialize_canonical_witness :
  NodeEncoding.deserialize (sampleHash ++ [x02; x09; x00; x00; x00; x07])
  = Ok (RightNodeValue sampleHash 9)
  /\ NodeEncoding.serialize (RightNodeValue sampleHash 9)
     = Ok (sampleHash ++ [x01; x09; x00; x00; x00]).
Proof.
  assert (H : NodeEncoding.deserialize (sampleHash ++ [x02; x09; x00; x00; x00; x07])
              = Ok (RightNodeValue sampleHash 9)) by (vm_compute; reflexivity).
  split; [exact H |].
  exact (serialize_deserialize_canonical _ _ H).
Defined.

Lemma tag_byte (t : byte) :
  0 <= Z_of_byte t <= 1 -> (if Z_of_byte t =? 0 then x00 else x01) = t.
Proof.
  intros Ht. rewrite <- (byte_of_Z_of_byte t) at 2.
  destruct (Z.eqb_spec (Z_of_byte t) 0) as [E|E].
  - rewrite E. reflexivity.
  - replace (Z_of_byte t) with 1 by lia. reflexivity.
Qed.

Lemma split_at (n : nat) (b : Buffer) :
  (n < length b)%nat ->
  b = firstn n b ++ [nth n b x00] ++ skipn (S n) b.
Proof.
  revert b. induction n as [|n IH]; intros [|x b] H; cbn in H; try lia.
  - reflexivity.
  - cbn [firstn nth skipn app]. f_equal. apply IH. lia.
Qed.

(** A buffer with a tag of 0 or 1 and the length the tag asks for is its own
    canonical form. *)
Lemma canonical_exact (b : Buffer) :
  lengthMatchesTag b = true -> Bufio.byteAt b 32 <= 1 -> canonical b = b.
Proof.
  unfold lengthMatchesTag, canonical. intros Hlen Htag.
  pose proof (byteAt_range b 32) as Hr.
  assert (H37 : (37 <= length b)%nat).
  { destruct (Bufio.byteAt b 32 =? 0);
      [apply orb_prop in Hlen; destruct Hlen as [Hlen|Hlen] |];
      apply Nat.eqb_eq in Hlen; lia. }
  etransitivity; [| symmetry; apply (split_at 32 b); lia].
  unfold Bufio.byteAt in *. rewrite tag_byte by lia.
  f_equal. f_equal.
  destruct (Z_of_byte (nth 32 b x00) =? 0).
  - apply orb_prop in Hlen. destruct Hlen as [Hlen|Hlen]; apply Nat.eqb_eq in Hlen.
    + rewrite Hlen. cbn [Nat.ltb Nat.leb andb]. rewrite app_nil_r.
      apply firstn_all2. rewrite length_skipn. lia.
    + rewrite Hlen. cbn [Nat.ltb Nat.leb andb].
      etransitivity; [| apply (firstn_skipn 4 (skipn 33 b))].
      f_equal. rewrite skipn_skipn. cbn [Nat.add].
      apply firstn_all2. rewrite length_skipn. lia.
  - apply Nat.eqb_eq in Hlen. cbn [andb]. rewrite app_nil_r.
    apply firstn_all2. rewrite length_skipn. lia.
Qed.

(** X7: a buffer whose tag byte is 0 or 1 and whose length is the one its
    tag asks for (37, or 41 under the left tag) decodes to a node that
    serializes back to the same buffer. *)
Theorem serialize_deserialize_exact (b : Buffer) :
  lengthMatchesTag b = true ->
  Bufio.byteAt b 32 <= 1 ->
  (value <- NodeEncoding.deserialize b ;; NodeEncoding.serialize value) = Ok b.
Proof.
  intros Hlen Htag.
  assert (Hok : isOk (NodeEncoding.deserialize b) = true).
  { rewrite deserialize_decode. unfold decodeByLength, lengthMatchesTag in *.
    cbv zeta.
    destruct (Bufio.byteAt b 32 =? 0);
      [apply orb_prop in Hlen; destruct Hlen as [Hlen|Hlen] |];
      apply Nat.eqb_eq in Hlen; rewrite Hlen; reflexivity. }
  destruct (NodeEncoding.deserialize b) as [value|e] eqn:Hd; [| discriminate].
  cbn [bind]. rewrite serialize_layout by (apply (decoded_valid b); assumption).
  rewrite (layout_decoded b) by assumption.
  rewrite canonical_exact by assumption. reflexivity.
Qed.

Lemma serialize_deserialize_exact_witness :
  lengthMatchesTag (sampleHash ++ [x00; x04; x03; x02; x01; x06; x00; x00; x00]) = true
  /\ Bufio.byteAt (sampleHash ++ [x00; x04; x03; x02; x01; x06; x00; x00; x00]) 32 <= 1
  /\ (value <- NodeEncoding.deserialize
                 (sampleHash ++ [x00; x04; x03; x02; x01; x06; x00; x00; x00]) ;;
      NodeEncoding.serialize value)
     = Ok (sampleHash ++ [x00; x04; x03; x02; x01; x06; x00; x00; x00]).
Proof.
  assert (H1 : lengthMatchesTag
                 (sampleHash ++ [x00; x04; x03; x02; x01; x06; x00; x00; x00]) = true)
    by reflexivity.
  assert (H2 : Bufio.byteAt
                 (sampleHash ++ [x00; x04; x03; x02; x01; x06; x00; x00; x00]) 32 <= 1)
    by (vm_compute; discriminate).
  split; [exact H1 |]. split; [exact H2 |].
  exact (serialize_deserialize_exact _ H1 H2).
Defined.

(** ** Bytes after the encoding *)

Lemma decode_layout_app (value : NodeValue) (extra : Buffer) :
  isValid value = true ->
  NodeEncoding.deserialize (layout value ++ extra)
  = match value with
    | LeftNodeValue h p None =>
        if (length extra =? 0)%nat then Ok value
        else if (length extra <? 4)%nat
             then Err (EncodingError 37 Bufio.OUT_OF_BOUNDS_READ)
             else Ok (LeftNodeValue h p (Some (Bufio.u32_at extra 0)))
    | _ => Ok value
    end.
Proof.
  intros Hv. rewrite deserialize_decode. unfold decodeByLength. cbv zeta.
  pose proof (layout_length value Hv) as Hl.
  assert (H37 : (37 <= length (layout value))%nat)
    by (rewrite Hl; destruct (hasRightIndex value); lia).
  rewrite length_app.
  rewrite (byteAt_app_l (layout value) extra 32) by lia.
  rewrite (firstn_app_l 32 (layout value) extra) by lia.
  rewrite (u32_at_app_l (layout value) extra 33) by lia.
  rewrite (layout_tag value Hv), (layout_hash value Hv), (layout_otherIndex value Hv).
  destruct (Nat.ltb_spec (length (layout value) + length extra) 32); [lia |].
  destruct (Nat.ltb_spec (length (layout value) + length extra) 33); [lia |].
  destruct (Nat.ltb_spec (length (layout value) + length extra) 37); [lia |].
  pose proof (layout_rightIndex value Hv) as Hri.
  destruct value as [h p [r|] | h l];
    cbn [side sideTag Z.eqb hashOfSibling otherIndex hasRightIndex rightIndex] in *.
  - rewrite Hl.
    destruct (Nat.eqb_spec (41 + length extra) 37); [lia |].
    destruct (Nat.ltb_spec (41 + length extra) 41); [lia |].
    rewrite (u32_at_app_l _ extra 37) by lia.
    rewrite (Hri r eq_refl). reflexivity.
  - rewrite Hl.
    destruct (Nat.eqb_spec (length extra) 0) as [E|E].
    + rewrite E. reflexivity.
    + destruct (Nat.eqb_spec (37 + length extra) 37); [lia |].
      destruct (Nat.ltb_spec (length extra) 4);
        destruct (Nat.ltb_spec (37 + length extra) 41); try lia; [reflexivity |].
      rewrite <- Hl at 1. rewrite <- (Nat.add_0_r (length (layout _))).
      rewrite u32_at_app. reflexivity.
  - reflexivity.
Qed.

(** X8: after the encoding of a valid right node, or of a valid left node
    that has a right index, any further bytes are ignored: the buffer still
    decodes to that node. *)
Theorem deserialize_ignores_trailing_bytes (value : NodeValue) (extra : Buffer) :
  isValid value = true ->
  isLeft value = false \/ hasRightIndex value = true ->
  (b <- NodeEncoding.serialize value ;; NodeEncoding.deserialize (b ++ extra))
  = Ok value.
Proof.
  intros Hv Hshape. rewrite serialize_layout by assumption. cbn [bind].
  rewrite decode_layout_app by assumption.
  destruct value as [h p [r|] | h l]; try reflexivity.
  destruct Hshape; discriminate.
Qed.

Lemma deserialize_ignores_trailing_bytes_witness :
  isValid sampleRight = true
  /\ (isLeft sampleRight = false \/ hasRightIndex sampleRight = true)
  /\ (b <- NodeEncoding.serialize sampleRight ;;
      NodeEncoding.deserialize (b ++ [xff; xff; xff; xff]))
     = Ok sampleRight.
Proof.
  assert (H : isLeft sampleRight = false \/ hasRightIndex sampleRight = true)
    by (left; reflexivity).
  split; [reflexivity |]. split; [exact H |].
  exact (deserialize_ignores_trailing_bytes sampleRight [xff; xff; xff; xff]
           eq_refl H).
Defined.

(** X9: the encoding of a valid left node without right index is not
    closed under appending: followed by four or more bytes it decodes to a
    left node whose right index is the first four of those bytes, and
    followed by one to three bytes it fails to decode. *)
Theorem deserialize_open_left_takes_trailing_bytes
        (h : Buffer) (p : Z) (extra : Buffer) :
  isValid (LeftNodeValue h p None) = true ->
  (0 < length extra)%nat ->
  (b <- NodeEncoding.serialize (LeftNodeValue h p None) ;;
   NodeEncoding.deserialize (b ++ extra))
  = if (length extra <? 4)%nat
    then Err (EncodingError 37 Bufio.OUT_OF_BOUNDS_READ)
    else Ok (LeftNodeValue h p (Some (Bufio.u32_at extra 0))).
Proof.
  intros Hv Hextra. rewrite serialize_layout by assumption. cbn [bind].
  rewrite decode_layout_app by assumption.
  destruct (Nat.eqb_spec (length extra) 0); [lia | reflexivity].
Qed.

Lemma deserialize_open_left_takes_trailing_bytes_witness :
  isValid sampleOpen = true
  /\ (0 < length [x06; x00; x00; x00])%nat
  /\ (b <- NodeEncoding.serialize sampleOpen ;;
      NodeEncoding.deserialize (b ++ [x06; x00; x00; x00]))
     = Ok (LeftNodeValue sampleHash 5 (Some 6)).
Proof.
  assert (H : (0 < length [x06; x00; x00; x00])%nat) by (cbn; lia).
  split; [reflexivity |]. split; [exact H |].
  exact (deserialize_open_left_takes_trailing_bytes sampleHash 5
           [x06; x00; x00; x00] eq_refl H).
Defined.

(** * Further properties of the benchmark command *)

Section BenchmarkOutcomes.

Variables Header Block Hash Time : Type.
Variable sequence : Header -> Z.
Variable noteCommitmentSize : Header -> Z.
Variable toHex : Hash -> string.
Variable showNumber : Z -> string.
Variable showTime : Time -> string.
Variable timeZero : Time.
Variable timeAdd : Time -> Time -> Time.
Variable elapsed : nat -> Time.
Variable node : Benchmark.Chain Header Block Hash.
Variable benchmarkNode : Benchmark.BenchmarkNode Block Hash.

Local Abbreviation start :=
  (Benchmark.start sequence noteCommitmentSize toHex showNumber showTime
     timeZero timeAdd elapsed node benchmarkNode).

Local Abbreviation opened :=
  (Benchmark.mkState (Benchmark.openingCalls benchmarkNode)
     (Benchmark.openingOutput benchmarkNode) 0).

(** The loop stops at the first header whose block is missing, the blocks
    before it added. *)
Lemma replay_until_missing (headers : list Header) :
  forall (totalTime : Time) (st : Benchmark.State Block),
    Benchmark.getBlocks node headers = None ->
    Benchmark.replay timeAdd elapsed node headers totalTime st
    = (Benchmark.mkState
         (Benchmark.calls st ++ map Benchmark.AddBlock (availableBlocks node headers))
         (Benchmark.output st)
         (Benchmark.measured st + length (availableBlocks node headers)),
       Benchmark.Throw Benchmark.AssertionError).
Proof.
  induction headers as [|header rest IH]; intros totalTime st Hb.
  - discriminate.
  - cbn [Benchmark.getBlocks availableBlocks] in *.
    cbn [Benchmark.replay]. unfold Benchmark.seq at 1.
    destruct (Benchmark.getBlock node header) as [block|] eqn:Hblock.
    + destruct (Benchmark.getBlocks node rest) as [blocks|] eqn:Hrest; [discriminate |].
      cbn [Benchmark.assertIsNotNull Benchmark.ret].
      unfold Benchmark.seq at 1. cbn [Benchmark.call].
      unfold Benchmark.seq at 1. cbn [Benchmark.benchEnd Benchmark.measured].
      rewrite (IH _ _ eq_refl).
      cbn [Benchmark.calls Benchmark.output Benchmark.measured map length].
      rewrite <- app_assoc, Nat.add_succ_r. reflexivity.
    + destruct st as [c o m]. cbn. rewrite app_nil_r, Nat.add_0_r. reflexivity.
Qed.

(** X10: when the chain is long enough but has no header at sequence 500,
    [start] stops on its assertion right after the opening phase: nothing
    is replayed, nothing rehashed, no hash logged. *)
Theorem start_missing_final_header :
  Benchmark.isEmpty node = false ->
  500 <= sequence (Benchmark.head node) ->
  Benchmark.getHeaderAtSequence node 500 = None ->
  start (Benchmark.initial Block) = (opened, Benchmark.Throw Benchmark.AssertionError).
Proof.
  intros Hempty Hhead Hfinal.
  unfold Benchmark.start. rewrite start_opening.
  rewrite start_after_checks by assumption.
  unfold Benchmark.seq at 1. rewrite Hfinal. reflexivity.
Qed.

(** X11: when a block between genesis and the header at sequence 500 is
    missing, [start] stops on its assertion in the middle of the replay: the
    blocks before the missing one have been added to the benchmark node,
    the tree is not rehashed and no hash is logged. *)
Theorem start_missing_block (finalHeader : Header) :
  Benchmark.isEmpty node = false ->
  500 <= sequence (Benchmark.head node) ->
  Benchmark.getHeaderAtSequence node 500 = Some finalHeader ->
  Benchmark.getBlocks node
    (Benchmark.iterateTo node (Benchmark.genesis node) finalHeader) = None ->
  let added :=
    availableBlocks node
      (Benchmark.iterateTo node (Benchmark.genesis node) finalHeader) in
  start (Benchmark.initial Block)
  = (Benchmark.mkState
       (Benchmark.openingCalls benchmarkNode ++ map Benchmark.AddBlock added)
       (Benchmark.openingOutput benchmarkNode)
       (length added),
     Benchmark.Throw Benchmark.AssertionError).
Proof.
  intros Hempty Hhead Hfinal Hblocks added.
  unfold Benchmark.start. rewrite start_opening.
  rewrite start_after_checks by assumption.
  unfold Benchmark.seq at 1. rewrite Hfinal.
  cbn [Benchmark.assertIsNotNull Benchmark.ret].
  unfold Benchmark.seq at 1.
  rewrite (replay_until_missing _ timeZero _ Hblocks). reflexivity.
Qed.

Lemma addBlocks_replay_calls (blocks : list Block) :
  forallb Benchmark.isReplayCall (map Benchmark.AddBlock blocks) = true.
Proof. induction blocks as [|b bs IH]; [reflexivity | exact IH]. Qed.

Lemma addBlocks_no_rehash (blocks : list Block) :
  ~ In Benchmark.RehashTree (map Benchmark.AddBlock blocks).
Proof.
  induction blocks as [|b bs IH]; cbn; [tauto |].
  intros [H|H]; [discriminate | exact (IH H)].
Qed.

(** Every run of [start]: the calls and the output of the opening phase,
    then only replay calls; the ways it ends; and when it rehashes. *)
Lemma start_shape :
  exists (cs : list (Benchmark.BenchCall Block))
         (os : list Benchmark.Output) (m : nat) (r : Benchmark.Step unit),
    start (Benchmark.initial Block)
    = (Benchmark.mkState (Benchmark.openingCalls benchmarkNode ++ cs)
         (Benchmark.openingOutput benchmarkNode ++ os) m, r)
    /\ forallb Benchmark.isReplayCall cs = true
    /\ (r = Benchmark.Continue tt
        \/ r = Benchmark.Throw (Benchmark.ExitError 0)
        \/ r = Benchmark.Throw Benchmark.AssertionError)
    /\ (In Benchmark.RehashTree cs <-> r = Benchmark.Continue tt)
    /\ ((exists msg, In (Benchmark.Log msg) os) <->
        (r = Benchmark.Continue tt \/ r = Benchmark.Throw (Benchmark.ExitError 0)))
    /\ (r <> Benchmark.Continue tt ->
        exists blocks : list Block, cs = map Benchmark.AddBlock blocks)
    /\ (r = Benchmark.Continue tt ->
        exists blocks : list Block,
          cs = map Benchmark.AddBlock blocks ++ [Benchmark.RehashTree]).
Proof.
  unfold Benchmark.start. rewrite start_opening.
  destruct (Benchmark.isEmpty node) eqn:Hempty.
  { exists [], [Benchmark.Log
                  ("Chain is too corrupt. Delete your DB at "
                   ++ Benchmark.chainDatabasePath node)%string], 0%nat,
      (Benchmark.Throw (Benchmark.ExitError 0)).
    rewrite app_nil_r.
    split; [reflexivity |]. split; [reflexivity |]. split; [auto |].
    split; [split; [intros [] | discriminate] |].
    split; [split; [auto | intros _; eexists; left; reflexivity] |].
    split; [intros _; exists []; reflexivity | discriminate]. }
  unfold Benchmark.seq at 1. cbn [Benchmark.ret]. unfold Benchmark.seq at 1.
  destruct (Z.ltb_spec (sequence (Benchmark.head node)) 500) as [Hhead|Hhead].
  { exists [], [Benchmark.Log "Need to sync more blocks for testing."], 0%nat,
      (Benchmark.Throw (Benchmark.ExitError 0)).
    rewrite app_nil_r.
    split; [reflexivity |]. split; [reflexivity |]. split; [auto |].
    split; [split; [intros [] | discriminate] |].
    split; [split; [auto | intros _; eexists; left; reflexivity] |].
    split; [intros _; exists []; reflexivity | discriminate]. }
  cbn [Benchmark.ret].
  unfold Benchmark.seq at 1.
  destruct (Benchmark.getHeaderAtSequence node 500) as [finalHeader|] eqn:Hfinal.
  2:{ exists [], [], 0%nat, (Benchmark.Throw Benchmark.AssertionError).
      rewrite !app_nil_r.
      split; [reflexivity |]. split; [reflexivity |]. split; [auto |].
      split; [split; [intros [] | discriminate] |].
      split; [split; [intros [msg []] | intros [H|H]; discriminate] |].
      split; [intros _; exists []; reflexivity | discriminate]. }
  cbn [Benchmark.assertIsNotNull Benchmark.ret].
  unfold Benchmark.seq at 1.
  destruct (Benchmark.getBlocks node
              (Benchmark.iterateTo node (Benchmark.genesis node) finalHeader))
    as [blocks|] eqn:Hblocks.
  - rewrite (replay_blocks _ _ _ _ timeAdd elapsed node _ blocks timeZero _ Hblocks).
    cbv [Benchmark.seq Benchmark.call Benchmark.benchEnd Benchmark.notesRootHash
         Benchmark.notesSize Benchmark.log Benchmark.emit Benchmark.calls
         Benchmark.output Benchmark.measured].
    rewrite <- !app_assoc.
    eexists (map Benchmark.AddBlock blocks ++ [Benchmark.RehashTree]), _, _, _.
    split; [reflexivity |].
    split.
    { rewrite forallb_app, addBlocks_replay_calls. reflexivity. }
    split; [auto |].
    split; [split; [reflexivity | intros _; apply in_or_app; right; left; reflexivity] |].
    split; [split; [auto | intros _; eexists; left; reflexivity] |].
    split; [intros H; exfalso; apply H; reflexivity
           | intros _; exists blocks; reflexivity].
  - rewrite (replay_until_missing _ timeZero _ Hblocks).
    eexists (map Benchmark.AddBlock _), [], _, _.
    rewrite app_nil_r.
    split; [reflexivity |].
    split; [apply addBlocks_replay_calls |].
    split; [auto |].
    split; [split; [intros H; exfalso; exact (addBlocks_no_rehash _ H) | discriminate] |].
    split; [split; [intros [msg []] | intros [H|H]; discriminate] |].
    split; [intros _; eexists; reflexivity | discriminate].
Qed.

(** X12: however its collaborators answer, [start] ends in one of three
    ways: it returns, it exits with code 0, or one of its two assertions
    fails.  A failure to open the benchmark node never escapes, and no other
    exit code is used. *)
Theorem start_outcomes :
  snd (start (Benchmark.initial Block)) = Benchmark.Continue tt
  \/ snd (start (Benchmark.initial Block)) = Benchmark.Throw (Benchmark.ExitError 0)
  \/ snd (start (Benchmark.initial Block)) = Benchmark.Throw Benchmark.AssertionError.
Proof.
  destruct start_shape as (cs & os & m & r & Hrun & _ & Hr & _).
  rewrite Hrun. exact Hr.
Qed.

(** X13: a run of [start] that returns has called [rehashTree] exactly
    once, after every [addBlock] and with no [addBlock] after it; a run that
    exits with code 0 or fails one of the two assertions of [start] has
    never called [rehashTree]: after the opening calls it has made
    [addBlock] calls only. *)
Theorem start_rehashes_after_full_replay :
  let run := start (Benchmark.initial Block) in
  (snd run = Benchmark.Continue tt ->
     ~ In Benchmark.RehashTree (Benchmark.openingCalls benchmarkNode)
     /\ exists blocks : list Block,
          ~ In Benchmark.RehashTree (map Benchmark.AddBlock blocks)
          /\ Benchmark.calls (fst run)
             = Benchmark.openingCalls benchmarkNode
               ++ map Benchmark.AddBlock blocks ++ [Benchmark.RehashTree])
  /\ (snd run = Benchmark.Throw (Benchmark.ExitError 0)
      \/ snd run = Benchmark.Throw Benchmark.AssertionError ->
      ~ In Benchmark.RehashTree (Benchmark.calls (fst run))
      /\ exists blocks : list Block,
           Benchmark.calls (fst run)
           = Benchmark.openingCalls benchmarkNode ++ map Benchmark.AddBlock blocks).
Proof.
  cbv zeta.
  destruct start_shape
    as (cs & os & m & r & Hrun & Hcs & _ & Hrehash & _ & Hadd & Hfull).
  rewrite Hrun. cbn [fst snd Benchmark.calls].
  assert (Hopen : ~ In Benchmark.RehashTree (Benchmark.openingCalls benchmarkNode)).
  { unfold Benchmark.openingCalls.
    destruct (Benchmark.openDBError benchmarkNode); cbn;
      intros H; repeat (destruct H as [H|H]; [discriminate |]); exact H. }
  split.
  - intros Hr. split; [exact Hopen |].
    destruct (Hfull Hr) as [blocks ->]. exists blocks.
    split; [apply addBlocks_no_rehash | reflexivity].
  - intros Hr.
    assert (Hne : r <> Benchmark.Continue tt)
      by (destruct Hr as [-> | ->]; discriminate).
    destruct (Hadd Hne) as [blocks ->]. split.
    + intros H. apply in_app_or in H. destruct H as [H|H];
        [contradiction | exact (addBlocks_no_rehash _ H)].
    + exists blocks. reflexivity.
Qed.

(** X14: when opening the database of the benchmark node throws, [start]
    never calls [chain.open] on it and logs the stack of what was thrown,
    and goes on: this holds in every run. *)
Theorem start_openDB_failure (stack : string) :
  Benchmark.openDBError benchmarkNode = Some stack ->
  ~ In Benchmark.ChainOpen (Benchmark.calls (fst (start (Benchmark.initial Block))))
  /\ In (Benchmark.Log stack)
       (Benchmark.output (fst (start (Benchmark.initial Block)))).
Proof.
  intros Hdb.
  destruct start_shape as (cs & os & m & r & Hrun & Hcs & _).
  rewrite Hrun. cbn [fst Benchmark.calls Benchmark.output].
  unfold Benchmark.openingCalls, Benchmark.openingOutput. rewrite Hdb.
  split.
  - intros H. apply in_app_or in H. destruct H as [H|H].
    + cbn in H. repeat (destruct H as [H|H]; [discriminate |]). exact H.
    + rewrite forallb_forall in Hcs. specialize (Hcs _ H). discriminate.
  - apply in_or_app. left. cbn. tauto.
Qed.

End BenchmarkOutcomes.

Lemma start_missing_final_header_witness :
  Benchmark.isEmpty SampleGap.unindexed = false
  /\ 500 <= Sample.sequence (Benchmark.head SampleGap.unindexed)
  /\ Benchmark.getHeaderAtSequence SampleGap.unindexed 500 = None
  /\ SampleGap.run SampleGap.unindexed (Sample.benchmarkNode "1111")
     = (Benchmark.mkState
          [Benchmark.SdkInit "~/.ironfishbenchmark"; Benchmark.CreateNode;
           Benchmark.OpenDB; Benchmark.ChainOpen]
          [Benchmark.ActionStart "Opening node"; Benchmark.ActionStop "done.";
           Benchmark.ActionStart "Opening benchmark node";
           Benchmark.ActionStop "done."]
          0,
        Benchmark.Throw Benchmark.AssertionError).
Proof.
  assert (H2 : 500 <= Sample.sequence (Benchmark.head SampleGap.unindexed))
    by (vm_compute; discriminate).
  split; [reflexivity |]. split; [exact H2 |]. split; [reflexivity |].
  exact (start_missing_final_header Z Z string Z Sample.sequence
           Sample.noteCommitmentSize (fun h : string => h) Sample.showZ
           Sample.showZ 0 Z.add (fun _ => 2) SampleGap.unindexed
           (Sample.benchmarkNode "1111") eq_refl H2 eq_refl).
Defined.

Lemma start_missing_block_witness :
  Benchmark.isEmpty (SampleGap.chain 3) = false
  /\ 500 <= Sample.sequence (Benchmark.head (SampleGap.chain 3))
  /\ Benchmark.getHeaderAtSequence (SampleGap.chain 3) 500 = Some 500
  /\ Benchmark.getBlocks (SampleGap.chain 3)
       (Benchmark.iterateTo (SampleGap.chain 3)
          (Benchmark.genesis (SampleGap.chain 3)) 500) = None
  /\ SampleGap.run (SampleGap.chain 3) (Sample.benchmarkNode "1111")
     = (Benchmark.mkState
          [Benchmark.SdkInit "~/.ironfishbenchmark"; Benchmark.CreateNode;
           Benchmark.OpenDB; Benchmark.ChainOpen;
           Benchmark.AddBlock 1; Benchmark.AddBlock 2]
          [Benchmark.ActionStart "Opening node"; Benchmark.ActionStop "done.";
           Benchmark.ActionStart "Opening benchmark node";
           Benchmark.ActionStop "done."]
          2,
        Benchmark.Throw Benchmark.AssertionError).
Proof.
  assert (H1 : Benchmark.isEmpty (SampleGap.chain 3) = false) by reflexivity.
  assert (H2 : 500 <= Sample.sequence (Benchmark.head (SampleGap.chain 3)))
    by (vm_compute; discriminate).
  assert (H3 : Benchmark.getHeaderAtSequence (SampleGap.chain 3) 500 = Some 500)
    by reflexivity.
  assert (H4 : Benchmark.getBlocks (SampleGap.chain 3)
                 (Benchmark.iterateTo (SampleGap.chain 3)
                    (Benchmark.genesis (SampleGap.chain 3)) 500) = None)
    by (vm_compute; reflexivity).
  do 4 (split; [assumption |]).
  pose proof (start_missing_block Z Z string Z Sample.sequence
                Sample.noteCommitmentSize (fun h : string => h) Sample.showZ
                Sample.showZ 0 Z.add (fun _ => 2) (SampleGap.chain 3)
                (Sample.benchmarkNode "1111") 500 H1 H2 H3 H4) as Hrun.
  vm_compute in Hrun. vm_compute. exact Hrun.
Defined.

Lemma start_openDB_failure_witness :
  Benchmark.openDBError SampleGap.lockedNode = Some "Error: database is locked"%string
  /\ ~ In Benchmark.ChainOpen
         (Benchmark.calls (fst (SampleGap.run (Sample.chain 600) SampleGap.lockedNode)))
  /\ In (Benchmark.Log "Error: database is locked")
        (Benchmark.output (fst (SampleGap.run (Sample.chain 600) SampleGap.lockedNode))).
Proof.
  split; [reflexivity |].
  exact (start_openDB_failure Z Z string Z Sample.sequence
           Sample.noteCommitmentSize (fun h : string => h) Sample.showZ
           Sample.showZ 0 Z.add (fun _ => 2) (Sample.chain 600)
           SampleGap.lockedNode "Error: database is locked" eq_refl).
Defined.

Example run_locked_node :
  snd (SampleGap.run (Sample.chain 600) SampleGap.lockedNode) = Benchmark.Continue tt
  /\ firstn 5 (Benchmark.calls (fst (SampleGap.run (Sample.chain 600) SampleGap.lockedNode)))
     = [Benchmark.SdkInit "~/.ironfishbenchmark"; Benchmark.CreateNode;
        Benchmark.OpenDB; Benchmark.AddBlock 1; Benchmark.AddBlock 2].
Proof. split; vm_compute; reflexivity. Qed.

(** * Properties of the route account/getAccountTransaction *)

Example handler_known_transaction :
  SampleWallet.handler
    {| GetAccountTransaction.account := None; GetAccountTransaction.hash := "aa" |}
  = {| GetAccountTransaction.responseAccount := "alice"%string;
       GetAccountTransaction.transaction :=
         Some {| GetAccountTransaction.serializedTransaction := 2%nat;
                 GetAccountTransaction.notes :=
                   [ {| Rpc.owner := true; Rpc.value := "7"%string;
                        Rpc.memo := "rent"%string; Rpc.spent := true |};
                     {| Rpc.owner := false; Rpc.value := "0"%string;
                        Rpc.memo := ""%string; Rpc.spent := false |} ];
                 GetAccountTransaction.status := "confirmed"%string |} |}.
Proof. vm_compute. reflexivity. Qed.

Example handler_unknown_transaction :
  SampleWallet.handler
    {| GetAccountTransaction.account := None; GetAccountTransaction.hash := "bb" |}
  = {| GetAccountTransaction.responseAccount := "alice"%string;
       GetAccountTransaction.transaction := None |}.
Proof. vm_compute. reflexivity. Qed.

Section HandlerProperties.

Variables Note Transaction TransactionValue RpcAccountTransaction : Type.
Variable getAccount : option string -> GetAccountTransaction.Account Note TransactionValue.
Variable bufferFromHex : string -> Buffer.
Variable transactionOf : TransactionValue -> Transaction.
Variable decryptNotes :
  Transaction -> list (GetAccountTransaction.Account Note TransactionValue) ->
  string -> option (list GetAccountTransaction.DecryptedNote).
Variable newNote : Buffer -> Note.
Variable memo : Note -> string.
Variable value : Note -> Z.
Variable bigintToString : Z -> string.
Variable serializeRpcAccountTransaction : TransactionValue -> RpcAccountTransaction.
Variable getTransactionStatus :
  GetAccountTransaction.Account Note TransactionValue -> TransactionValue -> string.

Local Abbreviation handler :=
  (GetAccountTransaction.handler getAccount bufferFromHex transactionOf
     decryptNotes newNote memo value bigintToString
     serializeRpcAccountTransaction getTransactionStatus).

Local Abbreviation serializeNote :=
  (GetAccountTransaction.serializeNote newNote memo value bigintToString).

Local Abbreviation serializeNotes :=
  (GetAccountTransaction.serializeNotes newNote memo value bigintToString).

(** The loop pushes one note per decrypted note, in order. *)
Lemma serializeNotes_map
      (account : GetAccountTransaction.Account Note TransactionValue)
      (notes : list GetAccountTransaction.DecryptedNote) :
  serializeNotes account notes = map (serializeNote account) notes.
Proof.
  unfold GetAccountTransaction.serializeNotes.
  assert (H : forall acc,
            fold_left (fun serializedNotes decryptedNote =>
                         serializedNotes ++ [serializeNote account decryptedNote])
                      notes acc
            = acc ++ map (serializeNote account) notes).
  { induction notes as [|n rest IH]; intros acc; cbn [fold_left map].
    - rewrite app_nil_r. reflexivity.
    - rewrite IH, <- app_assoc. reflexivity. }
  apply H.
Qed.

(** X15: when the account has the transaction, the response carries one
    note per note the wallet decrypted for that account, in the same order
    (none when the wallet returned no entry for the account), next to the
    status and the serialized transaction. *)
Theorem handler_notes_follow_decrypted
        (request : GetAccountTransaction.Request) (tx : TransactionValue) :
  let account := getAccount (GetAccountTransaction.account request) in
  GetAccountTransaction.getTransactionByUnsignedHash account
    (bufferFromHex (GetAccountTransaction.hash request)) = Some tx ->
  let decrypted :=
    match decryptNotes (transactionOf tx) [account]
            (GetAccountTransaction.id account) with
    | Some l => l
    | None => []
    end in
  handler request
  = {| GetAccountTransaction.responseAccount := GetAccountTransaction.name account;
       GetAccountTransaction.transaction :=
         Some {| GetAccountTransaction.serializedTransaction :=
                   serializeRpcAccountTransaction tx;
                 GetAccountTransaction.notes := map (serializeNote account) decrypted;
                 GetAccountTransaction.status := getTransactionStatus account tx |} |}.
Proof.
  intros account Htx decrypted. unfold GetAccountTransaction.handler.
  fold account. rewrite Htx. rewrite serializeNotes_map. reflexivity.
Qed.

(** X16: no note of a response is reported spent without being reported
    owned by the account. *)
Theorem handler_spent_implies_owner
        (request : GetAccountTransaction.Request)
        (serialized : GetAccountTransaction.Serialized RpcAccountTransaction)
        (n : Rpc.RpcAccountDecryptedNote) :
  GetAccountTransaction.transaction (handler request) = Some serialized ->
  In n (GetAccountTransaction.notes serialized) ->
  Rpc.spent n = true -> Rpc.owner n = true.
Proof.
  unfold GetAccountTransaction.handler.
  destruct (GetAccountTransaction.getTransactionByUnsignedHash _ _) as [tx|];
    [| discriminate].
  cbn [GetAccountTransaction.transaction]. intros [= <-].
  cbn [GetAccountTransaction.notes]. rewrite serializeNotes_map.
  intros Hin. apply in_map_iff in Hin. destruct Hin as (d & <- & _).
  unfold GetAccountTransaction.serializeNote. cbn [Rpc.spent Rpc.owner].
  destruct (GetAccountTransaction.getDecryptedNote _ _); [reflexivity | discriminate].
Qed.

(** X17: a note of the transaction that the account has not stored is
    reported not owned and not spent, its memo and value read from the note
    parsed out of the decrypted bytes. *)
Theorem handler_foreign_note
        (request : GetAccountTransaction.Request) (tx : TransactionValue)
        (decrypted : list GetAccountTransaction.DecryptedNote)
        (d : GetAccountTransaction.DecryptedNote) :
  let account := getAccount (GetAccountTransaction.account request) in
  GetAccountTransaction.getTransactionByUnsignedHash account
    (bufferFromHex (GetAccountTransaction.hash request)) = Some tx ->
  decryptNotes (transactionOf tx) [account] (GetAccountTransaction.id account)
  = Some decrypted ->
  In d decrypted ->
  GetAccountTransaction.getDecryptedNote account
    (GetAccountTransaction.noteHash d) = None ->
  exists serialized,
    GetAccountTransaction.transaction (handler request) = Some serialized
    /\ In {| Rpc.owner := false;
             Rpc.value :=
               bigintToString (value (newNote (GetAccountTransaction.serializedNote d)));
             Rpc.memo := memo (newNote (GetAccountTransaction.serializedNote d));
             Rpc.spent := false |}
          (GetAccountTransaction.notes serialized).
Proof.
  intros account Htx Hdec Hin Hnone. unfold GetAccountTransaction.handler.
  fold account. rewrite Htx, Hdec. eexists. split; [reflexivity |].
  cbn [GetAccountTransaction.notes]. rewrite serializeNotes_map.
  apply in_map_iff. exists d. split; [| exact Hin].
  unfold GetAccountTransaction.serializeNote. rewrite Hnone. reflexivity.
Qed.

End HandlerProperties.

Lemma handler_notes_follow_decrypted_witness :
  GetAccountTransaction.getTransactionByUnsignedHash SampleWallet.alice [xaa]
  = Some [ {| GetAccountTransaction.noteHash := [x01];
              GetAccountTransaction.serializedNote := [x0a] |};
           {| GetAccountTransaction.noteHash := [x02];
              GetAccountTransaction.serializedNote := [x0b] |} ]
  /\ SampleWallet.handler
       {| GetAccountTransaction.account := None; GetAccountTransaction.hash := "aa" |}
     = {| GetAccountTransaction.responseAccount := "alice"%string;
          GetAccountTransaction.transaction :=
            Some {| GetAccountTransaction.serializedTransaction := 2%nat;
                    GetAccountTransaction.notes :=
                      [ {| Rpc.owner := true; Rpc.value := "7"%string;
                           Rpc.memo := "rent"%string; Rpc.spent := true |};
                        {| Rpc.owner := false; Rpc.value := "0"%string;
                           Rpc.memo := ""%string; Rpc.spent := false |} ];
                    GetAccountTransaction.status := "confirmed"%string |} |}.
Proof.
  split; [reflexivity |].
  exact (handler_notes_follow_decrypted
           (string * Z) _ _ nat
           (fun _ => SampleWallet.alice)
           (fun h => if String.eqb h "aa" then [xaa] else [])
           (fun tx => tx)
           (fun tx _ accountId => if String.eqb accountId "a1" then Some tx else None)
           (fun _ => (""%string, 0)) fst snd SampleWallet.showZ
           (fun tx => length tx) (fun _ _ => "confirmed"%string)
           {| GetAccountTransaction.account := None; GetAccountTransaction.hash := "aa" |}
           _ eq_refl).
Defined.

Lemma handler_spent_implies_owner_witness :
  exists serialized,
    GetAccountTransaction.transaction
      (SampleWallet.handler
         {| GetAccountTransaction.account := None; GetAccountTransaction.hash := "aa" |})
    = Some serialized
    /\ In {| Rpc.owner := true; Rpc.value := "7"%string;
             Rpc.memo := "rent"%string; Rpc.spent := true |}
          (GetAccountTransaction.notes serialized)
    /\ Rpc.owner {| Rpc.owner := true; Rpc.value := "7"%string;
                    Rpc.memo := "rent"%string; Rpc.spent := true |} = true.
Proof.
  eexists. split; [vm_compute; reflexivity |].
  assert (Hin : In {| Rpc.owner := true; Rpc.value := "7"%string;
                      Rpc.memo := "rent"%string; Rpc.spent := true |}
                   [ {| Rpc.owner := true; Rpc.value := "7"%string;
                        Rpc.memo := "rent"%string; Rpc.spent := true |};
                     {| Rpc.owner := false; Rpc.value := "0"%string;
                        Rpc.memo := ""%string; Rpc.spent := false |} ])
    by (left; reflexivity).
  split; [exact Hin |].
  exact (handler_spent_implies_owner
           (string * Z) _ _ nat
           (fun _ => SampleWallet.alice)
           (fun h => if String.eqb h "aa" then [xaa] else [])
           (fun tx => tx)
           (fun tx _ accountId => if String.eqb accountId "a1" then Some tx else None)
           (fun _ => (""%string, 0)) fst snd SampleWallet.showZ
           (fun tx => length tx) (fun _ _ => "confirmed"%string)
           {| GetAccountTransaction.account := None; GetAccountTransaction.hash := "aa" |}
           _ _ eq_refl Hin eq_refl).
Defined.

Lemma handler_foreign_note_witness :
  GetAccountTransaction.getDecryptedNote SampleWallet.alice [x02] = None
  /\ exists serialized,
       GetAccountTransaction.transaction
         (SampleWallet.handler
            {| GetAccountTransaction.account := None; GetAccountTransaction.hash := "aa" |})
       = Some serialized
       /\ In {| Rpc.owner := false; Rpc.value := "0"%string;
                Rpc.memo := ""%string; Rpc.spent := false |}
             (GetAccountTransaction.notes serialized).
Proof.
  split; [reflexivity |].
  exact (handler_foreign_note
           (string * Z) _ _ nat
           (fun _ => SampleWallet.alice)
           (fun h => if String.eqb h "aa" then [xaa] else [])
           (fun tx => tx)
           (fun tx _ accountId => if String.eqb accountId "a1" then Some tx else None)
           (fun _ => (""%string, 0)) fst snd SampleWallet.showZ
           (fun tx => length tx) (fun _ _ => "confirmed"%string)
           {| GetAccountTransaction.account := None; GetAccountTransaction.hash := "aa" |}
           _ _
           {| GetAccountTransaction.noteHash := [x02];
              GetAccountTransaction.serializedNote := [x0b] |}
           eq_refl eq_refl (or_intror (or_introl eq_refl)) eq_refl).
Defined.
